(** * PDF converter service: a shallow embedding of the request handlers

    The repository ships three revisions of [index.js].  Each registers the
    routes [POST /convert] (multipart, through multer) and
    [POST /convert-raw] (raw body, through [express.raw]) and differs only in
    the rendering library behind them:

    - [PdfToPng]: [pdf-to-png-converter], rendering in memory;
    - [Canvas]:   [pdfjs-dist] drawing on a [canvas] surface;
    - [Poppler]:  [pdf-poppler], an external process working on files
                  under [/tmp].

    The handlers are embedded as computations in a small state and exception
    monad over a [World] holding the clock, the file system, the console and
    the trace of calls made to the rendering library.  The rendering
    libraries themselves are not part of the repository: each handler takes
    its library as a parameter. *)

From Stdlib Require Import ZArith QArith Strings.Byte Ascii String.
From stdpp Require Import base option list strings gmap pretty.

Local Open Scope string_scope.
Local Open Scope list_scope.
Local Open Scope Z_scope.

(* ===================================================================== *)
(** * JavaScript values                                                   *)
(* ===================================================================== *)

(** The values that can sit in [req.body] and [req.file.buffer]:
    [undefined], the empty object literal, or a [Buffer]. *)
Inductive JsVal :=
| JUndefined
| JEmptyObject
| JBuffer (b : list byte).

(** [!v] is false for every object, an empty [Buffer] included. *)
Definition truthy (v : JsVal) : bool :=
  match v with
  | JUndefined => false
  | JEmptyObject => true
  | JBuffer _ => true
  end.

(** [v.length] for a truthy [v]: a number for a [Buffer], [undefined] for a
    plain object. *)
Definition js_length (v : JsVal) : option Z :=
  match v with
  | JBuffer b => Some (Z.of_nat (length b))
  | _ => None
  end.

(** [n === 0] where [n] may be [undefined]. *)
Definition strict_eq_zero (n : option Z) : bool :=
  match n with
  | Some k => k =? 0
  | None => false
  end.

(** [s || d] on strings: [undefined] and the empty string are falsy. *)
Definition str_or (s : option string) (d : string) : string :=
  match s with
  | Some (String c r) => String c r
  | _ => d
  end.

(** A thrown value.  What the handlers do with it is read its [message],
    which may be missing or empty; the thrown values of the model are
    objects (an [Error], or any other object), for which that read never
    fails.  A library that rejects with [undefined] or [null] is outside
    the model: there [error.message] itself throws inside the [catch]
    block. *)
Record JsError := mkError { message : option string }.

Definition Error (msg : string) : JsError := mkError (Some msg).

(* ===================================================================== *)
(** * Node: [path.join] (POSIX)                                           *)
(* ===================================================================== *)

Module path.

Definition is_sep (c : ascii) : bool := Ascii.eqb c "/"%char.

(** The segments of a path between separators. *)
Fixpoint segments (s : string) : list string :=
  match s with
  | EmptyString => [EmptyString]
  | String c r =>
      if is_sep c then EmptyString :: segments r
      else match segments r with
           | [] => [String c EmptyString]
           | h :: t => String c h :: t
           end
  end.

(** [normalizeString]: the stack of segments kept so far, innermost
    first.  Empty and [.] segments vanish; [..] removes the previous
    segment, or is kept when the path may climb above its start. *)
Fixpoint resolve (allowAboveRoot : bool) (stack : list string)
         (segs : list string) : list string :=
  match segs with
  | [] => reverse stack
  | seg :: rest =>
      if String.eqb seg EmptyString || String.eqb seg "." then
        resolve allowAboveRoot stack rest
      else if String.eqb seg ".." then
        match stack with
        | top :: below =>
            if String.eqb top ".." then
              resolve allowAboveRoot (seg :: stack) rest
            else resolve allowAboveRoot below rest
        | [] =>
            if allowAboveRoot then resolve allowAboveRoot [seg] rest
            else resolve allowAboveRoot [] rest
        end
      else resolve allowAboveRoot (seg :: stack) rest
  end.

Fixpoint join_segments (segs : list string) : string :=
  match segs with
  | [] => EmptyString
  | [s] => s
  | s :: rest => s +:+ "/" +:+ join_segments rest
  end.

Definition starts_with_sep (s : string) : bool :=
  match s with
  | String c _ => is_sep c
  | EmptyString => false
  end.

Fixpoint ends_with_sep (s : string) : bool :=
  match s with
  | EmptyString => false
  | String c EmptyString => is_sep c
  | String _ r => ends_with_sep r
  end.

Definition normalize (p : string) : string :=
  if String.eqb p EmptyString then "."
  else
    let isAbsolute := starts_with_sep p in
    let trailingSeparator := ends_with_sep p in
    let q := join_segments (resolve (negb isAbsolute) [] (segments p)) in
    if String.eqb q EmptyString then
      if isAbsolute then "/"
      else if trailingSeparator then "./" else "."
    else
      let q' := if trailingSeparator then q +:+ "/" else q in
      if isAbsolute then "/" +:+ q' else q'.

(** [path.join(a, b)]: the non-empty arguments joined by [/], then
    normalized. *)
Definition join (a b : string) : string :=
  match String.eqb a EmptyString, String.eqb b EmptyString with
  | true, true => "."
  | true, false => normalize b
  | false, true => normalize a
  | false, false => normalize (a +:+ "/" +:+ b)
  end.

(** Some character of [s] is not a separator. *)
Fixpoint has_name (s : string) : bool :=
  match s with
  | EmptyString => false
  | String c r => negb (is_sep c) || has_name r
  end.

(** What stands before the last separator of [s] that has a name after
    it, if there is such a separator. *)
Fixpoint before_last_name (s : string) : option string :=
  match s with
  | EmptyString => None
  | String c r =>
      match before_last_name r with
      | Some d => Some (String c d)
      | None => if is_sep c && has_name r then Some EmptyString else None
      end
  end.

(** [path.dirname(p)]: trailing separators are skipped, then the last
    name; the separator at position 0 is never the cut. *)
Definition dirname (p : string) : string :=
  match p with
  | EmptyString => "."
  | String c r =>
      match before_last_name r with
      | Some EmptyString => if is_sep c then "//" else String c EmptyString
      | Some d => String c d
      | None => if is_sep c then "/" else "."
      end
  end.

End path.

(* ===================================================================== *)
(** * Node: the synchronous [fs] calls the handlers make                  *)
(* ===================================================================== *)

Inductive Node :=
| File (content : list byte)
| Dir.

Module fs.

(** [p] lies strictly below directory [d]. *)
Definition below (d p : string) : bool := String.prefix (d +:+ "/") p.

Definition has_entries (d : string) (disk : gmap string Node) : bool :=
  existsb (λ kv, below d kv.1) (map_to_list disk).

(** The path as node appends it to the message of a failed call. *)
Definition quoted (p : string) : string := " '" +:+ p +:+ "'".

Definition double_quote : string :=
  String (Ascii false true false false false true false false) EmptyString.

(** What is wrong with the directory a new entry [p] would go into.  The
    root and [/tmp] are directories on every disk; any other directory is
    there when the disk holds it. *)
Definition parent_error (p : string) (disk : gmap string Node)
  : option string :=
  let d := path.dirname p in
  if String.eqb d "/" || String.eqb d "/tmp" then None
  else match disk !! d with
       | Some Dir => None
       | Some (File _) => Some "ENOTDIR: not a directory"
       | None => Some "ENOENT: no such file or directory"
       end.

(** [fs.writeFileSync(p, data)]: [data] must be a [Buffer] (anything else
    raises [ERR_INVALID_ARG_TYPE]); the directory of [p] must exist; the
    file is created or truncated. *)
Definition writeFileSync (p : string) (data : JsVal)
           (disk : gmap string Node) : JsError + gmap string Node :=
  match data with
  | JBuffer b =>
      match disk !! p with
      | Some Dir =>
          inl (Error ("EISDIR: illegal operation on a directory, open" +:+ quoted p))
      | _ =>
          match parent_error p disk with
          | Some e => inl (Error (e +:+ ", open" +:+ quoted p))
          | None => inr (<[p := File b]> disk)
          end
      end
  | JEmptyObject =>
      inl (Error ("The " +:+ double_quote +:+ "data" +:+ double_quote +:+
                  " argument must be of type string or an instance of Buffer, TypedArray, or DataView. Received an instance of Object"))
  | JUndefined =>
      inl (Error ("The " +:+ double_quote +:+ "data" +:+ double_quote +:+
                  " argument must be of type string or an instance of Buffer, TypedArray, or DataView. Received undefined"))
  end.

Definition readFileSync (p : string) (disk : gmap string Node)
  : JsError + list byte :=
  match disk !! p with
  | Some (File b) => inr b
  | Some Dir => inl (Error "EISDIR: illegal operation on a directory, read")
  | None => inl (Error ("ENOENT: no such file or directory, open" +:+ quoted p))
  end.

Definition unlinkSync (p : string) (disk : gmap string Node)
  : JsError + gmap string Node :=
  match disk !! p with
  | Some (File _) => inr (delete p disk)
  | Some Dir =>
      inl (Error ("EISDIR: illegal operation on a directory, unlink" +:+ quoted p))
  | None => inl (Error ("ENOENT: no such file or directory, unlink" +:+ quoted p))
  end.

Definition rmdirSync (p : string) (disk : gmap string Node)
  : JsError + gmap string Node :=
  match disk !! p with
  | Some Dir =>
      if has_entries p disk
      then inl (Error ("ENOTEMPTY: directory not empty, rmdir" +:+ quoted p))
      else inr (delete p disk)
  | Some (File _) => inl (Error ("ENOTDIR: not a directory, rmdir" +:+ quoted p))
  | None => inl (Error ("ENOENT: no such file or directory, rmdir" +:+ quoted p))
  end.

End fs.

(* ===================================================================== *)
(** * Interfaces of the rendering libraries                               *)
(* ===================================================================== *)

(** [pdf-to-png-converter]: the options object and one rendered page. *)
Module PdfToPngConverter.

Record Props := mkProps {
  disableFontFace : bool;
  useSystemFonts : bool;
  enableXfa : bool;
  viewportScale : Q;
  outputFilesFolder : option string;
  outputFolder : option string;
  pagesRange : list Z;
  strictPaging : bool;
}.

Record PngPageOutput := mkPage {
  pageNumber : Z;
  content : list byte;
}.

End PdfToPngConverter.

(** [pdfjs-dist] and [canvas]: documents, pages, viewports and the raster
    surface.  Objects with methods are records with function fields. *)
Module PdfJs.

Record Viewport := mkViewport { width : Q; height : Q }.

Inductive DrawOp :=
| FillRect (style : string) (x y w h : Q)
| PaintPage (pageNumber : Z).

Record Canvas := mkCanvas {
  canvasWidth : Q;
  canvasHeight : Q;
  fillStyle : string;
  drawn : list DrawOp;
}.

Record PDFPageProxy := mkPageProxy {
  pageNumber : Z;
  getViewport : Q → Viewport;
  render : Canvas → Viewport → JsError + Canvas;
}.

Record PDFDocumentProxy := mkDocument {
  numPages : Z;
  getPage : Z → JsError + PDFPageProxy;
}.

Record DocumentInit := mkInit {
  data : JsVal;
  useWorkerFetch : bool;
  isEvalSupported : bool;
  useSystemFonts : bool;
  disableWorker : bool;
}.

(** [createCanvas(w, h)] gives a blank surface; the 2d context starts
    with a black fill style. *)
Definition createCanvas (w h : Q) : Canvas := mkCanvas w h "#000000" [].

Definition set_fillStyle (style : string) (c : Canvas) : Canvas :=
  mkCanvas (canvasWidth c) (canvasHeight c) style (drawn c).

Definition fillRect (x y w h : Q) (c : Canvas) : Canvas :=
  mkCanvas (canvasWidth c) (canvasHeight c) (fillStyle c)
           (drawn c ++ [FillRect (fillStyle c) x y w h]).

End PdfJs.

(** [pdf-poppler]: the options object and what [convert] resolves to. *)
Module PdfPoppler.

Record Options := mkOptions {
  format : string;
  out_dir : string;
  out_prefix : string;
  page : Z;
  scale : Z;
  single_file : bool;
}.

Inductive Results :=
| RUndefined
| RString (s : string)
| RArray (items : list string).

(** [!results || results.length === 0] *)
Definition nothing_converted (r : Results) : bool :=
  match r with
  | RUndefined => true
  | RString s => String.eqb s EmptyString
  | RArray items => Z.of_nat (length items) =? 0
  end.

End PdfPoppler.

(* ===================================================================== *)
(** * The world a handler runs in                                         *)
(* ===================================================================== *)

(** Calls that cross into a rendering library, in the order made. *)
Inductive Call :=
| CallPdfToPng (input : JsVal) (props : PdfToPngConverter.Props)
| CallGetDocument (params : PdfJs.DocumentInit)
| CallGetPage (pageNumber : Z)
| CallRender (viewport : PdfJs.Viewport)
| CallPageCleanup
| CallDestroy
| CallPopplerConvert (file : string) (opts : PdfPoppler.Options).

Inductive Level := Warn | Err.

(** A call of [console.warn] or [console.error] with its two arguments as
    the handler passes them; the second may be [undefined].  What node
    prints is [util.format] of the two, which reads the first as a format
    string; the printed text is not modelled.  The [console.log] progress
    lines of the handlers have no effect on control flow and are left
    out. *)
Record LogLine := mkLog {
  level : Level;
  format : string;
  argument : option string;
}.

Record World := mkWorld {
  clock : nat → Z;          (* successive readings of [Date.now()] *)
  ticks : nat;              (* readings taken so far *)
  disk : gmap string Node;  (* the file system *)
  console : list LogLine;
  calls : list Call;
  pdfjsLib : bool;          (* the lazily initialised module variable *)
}.

Definition Js (A : Type) : Type := World → (JsError + A) * World.

#[global] Instance Js_ret : MRet Js := λ A a w, (inr a, w).

#[global] Instance Js_bind : MBind Js := λ A B k m w,
  match m w with
  | (inr a, w') => k a w'
  | (inl e, w') => (inl e, w')
  end.

Definition throw {A : Type} (e : JsError) : Js A := λ w, (inl e, w).

(** [try { body } catch (error) { handler }]: effects of [body] up to the
    throw are kept. *)
Definition try_catch {A : Type} (body : Js A) (handler : JsError → Js A)
  : Js A := λ w,
  match body w with
  | (inr a, w') => (inr a, w')
  | (inl e, w') => handler e w'
  end.

(** A pure library call that may throw. *)
Definition lift {A : Type} (r : JsError + A) : Js A := λ w, (r, w).

Definition Date_now : Js Z := λ w,
  (inr (clock w (ticks w)),
   mkWorld (clock w) (S (ticks w)) (disk w) (console w) (calls w) (pdfjsLib w)).

Definition record_call (c : Call) : Js unit := λ w,
  (inr tt,
   mkWorld (clock w) (ticks w) (disk w) (console w) (calls w ++ [c]) (pdfjsLib w)).

Definition console_write (l : Level) (first : string) (second : option string)
  : Js unit := λ w,
  (inr tt,
   mkWorld (clock w) (ticks w) (disk w)
           (console w ++ [mkLog l first second])
           (calls w) (pdfjsLib w)).

Definition console_warn := console_write Warn.
Definition console_error := console_write Err.

(** A file-system call: on success the disk is replaced, on failure it is
    left as it was. *)
Definition on_disk (op : gmap string Node → JsError + gmap string Node)
  : Js unit := λ w,
  match op (disk w) with
  | inr d => (inr tt, mkWorld (clock w) (ticks w) d (console w) (calls w) (pdfjsLib w))
  | inl e => (inl e, w)
  end.

Definition read_disk {A : Type} (op : gmap string Node → JsError + A)
  : Js A := λ w, (op (disk w), w).

(** [x.toString()] where [x] may be [undefined]. *)
Definition toString (x : option Z) : Js string :=
  match x with
  | Some n => mret (pretty n)
  | None => throw (Error "Cannot read properties of undefined (reading 'toString')")
  end.

(* ===================================================================== *)
(** * Express: requests and responses                                     *)
(* ===================================================================== *)

(** What multer leaves in [req.file]. *)
Record MulterFile := mkFile { buffer : JsVal }.

Record Request := mkRequest {
  headers : gmap string string;
  file : option MulterFile;   (* [req.file], set by [upload.single('pdf')] *)
  body : JsVal;               (* [req.body], set by [express.raw] *)
}.

Inductive HeaderVal :=
| HNum (n : Z)
| HStr (s : string).

Inductive JsonVal :=
| JStr (s : string)
| JNum (n : Z).

Inductive Payload :=
| NoPayload
| Json (fields : list (string * JsonVal))
| Binary (b : list byte).

Record Response := mkResponse {
  status : Z;
  sent_headers : list (string * HeaderVal);
  payload : Payload;
}.

(** [res.status(code).json(obj)] *)
Definition status_json (code : Z) (fields : list (string * JsonVal))
  : Response := mkResponse code [] (Json fields).

(** [res.set(obj); res.send(buf)] on a fresh response. *)
Definition set_send (hs : list (string * HeaderVal)) (buf : list byte)
  : Response := mkResponse 200 hs (Binary buf).

(** [req.headers['x-correlation-id'] || 'unknown'] *)
Definition correlationId_of (req : Request) : string :=
  str_or (headers req !! "x-correlation-id") "unknown".

(** The body of every status-500 answer and the headers of every
    status-200 answer. *)
Definition failure (correlationId errorMessage : string) (processingTime : Z)
  : Response :=
  status_json 500
    [("error", JStr "PDF conversion failed");
     ("message", JStr errorMessage);
     ("correlationId", JStr correlationId);
     ("processingTimeMs", JNum processingTime)].

Definition success (correlationId time original converted : string)
           (pngBuffer : list byte) : Response :=
  set_send
    [("Content-Type", HStr "image/png");
     ("Content-Length", HNum (Z.of_nat (length pngBuffer)));
     ("X-Processing-Time-Ms", HStr time);
     ("X-Correlation-Id", HStr correlationId);
     ("X-Original-Size", HStr original);
     ("X-Converted-Size", HStr converted)]
    pngBuffer.

(** The [catch] block every handler ends with. *)
Definition conversion_failed (what : string) (startTime : Z)
           (correlationId : string) (error : JsError) : Js Response :=
  now ← Date_now;
  let processingTime := now - startTime in
  let errorMessage := str_or (message error) "Unknown conversion error" in
  console_error ("[" +:+ correlationId +:+ "] " +:+ what +:+ " failed after "
                 +:+ pretty processingTime +:+ "ms:") (Some errorMessage);;
  mret (failure correlationId errorMessage processingTime).

(** The end of every [try] block: the elapsed time is taken, the headers
    are built (each [.toString()] may throw) and the image is sent. *)
Definition conversion_succeeded (startTime : Z) (correlationId : string)
           (input : JsVal) (pngBuffer : list byte) : Js Response :=
  now ← Date_now;
  let processingTime := now - startTime in
  time ← toString (Some processingTime);
  original ← toString (js_length input);
  converted ← toString (Some (Z.of_nat (length pngBuffer)));
  mret (success correlationId time original converted pngBuffer).

(** The two guards.  [/convert] tests [!req.file || !req.file.buffer];
    [/convert-raw] tests [!req.body || req.body.length === 0]. *)
Definition no_file (req : Request) : bool :=
  match file req with
  | None => true
  | Some f => negb (truthy (buffer f))
  end.

Definition no_body (req : Request) : bool :=
  negb (truthy (body req)) || strict_eq_zero (js_length (body req)).

(** [req.file.buffer], read after the guard has passed. *)
Definition file_buffer (req : Request) : JsVal :=
  match file req with
  | Some f => buffer f
  | None => JUndefined
  end.

Definition bad_request (error correlationId : string) : Response :=
  status_json 400 [("error", JStr error); ("correlationId", JStr correlationId)].

(* ===================================================================== *)
(** * First revision: [pdf-to-png-converter]                              *)
(* ===================================================================== *)

Module PdfToPng.
Import PdfToPngConverter.

(** The options both routes pass to [pdfToPng]. *)
Definition props : Props :=
  {| disableFontFace := false;
     useSystemFonts := false;
     enableXfa := false;
     viewportScale := 2;
     outputFilesFolder := None;
     outputFolder := None;
     pagesRange := [1];
     strictPaging := false |}.

Section Handlers.

(** [pdfToPng(input, props)]: rejects, or resolves to the rendered
    pages ([None] stands for a falsy result). *)
Variable pdfToPng : JsVal → Props → JsError + option (list PngPageOutput).

(** From the call of [pdfToPng] to [pngPages[0].content]. *)
Definition first_page (input : JsVal) : Js (list byte) :=
  record_call (CallPdfToPng input props);;
  pngPages ← lift (pdfToPng input props);
  match pngPages with
  | Some (first :: _) => mret (content first)
  | _ => throw (Error "No pages converted from PDF")
  end.

(** [app.post('/convert', upload.single('pdf'), ...)] *)
Definition convert (req : Request) : Js Response :=
  startTime ← Date_now;
  let correlationId := correlationId_of req in
  try_catch
    (if no_file req then
       mret (bad_request "No PDF file provided" correlationId)
     else
       pngBuffer ← first_page (file_buffer req);
       conversion_succeeded startTime correlationId (file_buffer req) pngBuffer)
    (conversion_failed "Conversion" startTime correlationId).

(** [app.post('/convert-raw', express.raw(...), ...)] *)
Definition convert_raw (req : Request) : Js Response :=
  startTime ← Date_now;
  let correlationId := correlationId_of req in
  try_catch
    (if no_body req then
       mret (bad_request "No PDF data provided" correlationId)
     else
       pngBuffer ← first_page (body req);
       conversion_succeeded startTime correlationId (body req) pngBuffer)
    (conversion_failed "Raw conversion" startTime correlationId).

End Handlers.
End PdfToPng.

(* ===================================================================== *)
(** * Second revision: [pdfjs-dist] on a [canvas]                         *)
(* ===================================================================== *)

Module Canvas.
Import PdfJs.

Section Handlers.

(** [pdfjs.getDocument(params).promise] and [canvas.toBuffer('image/png')]. *)
Variable getDocument : DocumentInit → JsError + PDFDocumentProxy.
Variable toBuffer : PdfJs.Canvas → list byte.

(** Loads the library on first use and remembers it. *)
Definition initPdfJs : Js unit := λ w,
  (inr tt,
   if pdfjsLib w then w
   else mkWorld (clock w) (ticks w) (disk w) (console w) (calls w) true).

Definition convertPdfToPng (pdfBuffer : JsVal) (correlationId : string)
  : Js (list byte) :=
  initPdfJs;;
  let params :=
    {| data := pdfBuffer;
       useWorkerFetch := false;
       isEvalSupported := false;
       useSystemFonts := true;
       disableWorker := true |} in
  record_call (CallGetDocument params);;
  pdf ← lift (getDocument params);
  if numPages pdf =? 0 then throw (Error "PDF has no pages")
  else
    record_call (CallGetPage 1);;
    page ← lift (getPage pdf 1);
    let viewport := getViewport page 2 in
    let canvas := createCanvas (width viewport) (height viewport) in
    let canvas := set_fillStyle "white" canvas in
    let canvas := fillRect 0 0 (width viewport) (height viewport) canvas in
    record_call (CallRender viewport);;
    canvas ← lift (render page canvas viewport);
    let pngBuffer := toBuffer canvas in
    record_call CallPageCleanup;;
    record_call CallDestroy;;
    mret pngBuffer.

Definition convert (req : Request) : Js Response :=
  startTime ← Date_now;
  let correlationId := correlationId_of req in
  try_catch
    (if no_file req then
       mret (bad_request "No PDF file provided" correlationId)
     else
       pngBuffer ← convertPdfToPng (file_buffer req) correlationId;
       conversion_succeeded startTime correlationId (file_buffer req) pngBuffer)
    (conversion_failed "Conversion" startTime correlationId).

Definition convert_raw (req : Request) : Js Response :=
  startTime ← Date_now;
  let correlationId := correlationId_of req in
  try_catch
    (if no_body req then
       mret (bad_request "No PDF data provided" correlationId)
     else
       pngBuffer ← convertPdfToPng (body req) correlationId;
       conversion_succeeded startTime correlationId (body req) pngBuffer)
    (conversion_failed "Raw conversion" startTime correlationId).

End Handlers.
End Canvas.

(* ===================================================================== *)
(** * Third revision: [pdf-poppler] through files under [/tmp]            *)
(* ===================================================================== *)

Inductive Route := ConvertRoute | ConvertRawRoute.

Module Poppler.
Import PdfPoppler.

(** [`${correlationId}.pdf`] on [/convert], [`${correlationId}-raw.pdf`]
    on [/convert-raw]; likewise for the output directory. *)
Definition tempPdfPath (r : Route) (correlationId : string) : string :=
  match r with
  | ConvertRoute => path.join "/tmp" (correlationId +:+ ".pdf")
  | ConvertRawRoute => path.join "/tmp" (correlationId +:+ "-raw.pdf")
  end.

Definition tempOutputDir (r : Route) (correlationId : string) : string :=
  match r with
  | ConvertRoute => path.join "/tmp" ("output-" +:+ correlationId)
  | ConvertRawRoute => path.join "/tmp" ("output-" +:+ correlationId +:+ "-raw")
  end.

Definition pngPath (r : Route) (correlationId : string) : string :=
  path.join (tempOutputDir r correlationId) "page-1.png".

Definition options (r : Route) (correlationId : string) : Options :=
  {| format := "png";
     out_dir := tempOutputDir r correlationId;
     out_prefix := "page";
     page := 1;
     scale := 2048;
     single_file := true |}.

Definition cleanup_label (r : Route) : string :=
  match r with
  | ConvertRoute => "Cleanup warning:"
  | ConvertRawRoute => "Raw cleanup warning:"
  end.

Section Handlers.

(** [pdf.convert(file, opts)]: the external process reads and writes the
    disk, then the promise rejects or resolves. *)
Variable pdf_convert :
  string → Options → gmap string Node →
  (JsError + Results) * gmap string Node.

Definition run_convert (file : string) (opts : Options) : Js Results := λ w,
  let '(r, d) := pdf_convert file opts (disk w) in
  (r, mkWorld (clock w) (ticks w) d (console w)
              (calls w ++ [CallPopplerConvert file opts]) (pdfjsLib w)).

(** The [try { unlink; unlink; rmdir } catch (cleanupError) { warn }]
    block. *)
Definition cleanup (r : Route) (correlationId : string) : Js unit :=
  try_catch
    (on_disk (fs.unlinkSync (tempPdfPath r correlationId));;
     on_disk (fs.unlinkSync (pngPath r correlationId));;
     on_disk (fs.rmdirSync (tempOutputDir r correlationId)))
    (λ cleanupError,
       console_warn ("[" +:+ correlationId +:+ "] " +:+ cleanup_label r)
                    (message cleanupError)).

(** From writing the temporary file to the end of the cleanup block. *)
Definition through_files (r : Route) (correlationId : string)
           (input : JsVal) : Js (list byte) :=
  on_disk (fs.writeFileSync (tempPdfPath r correlationId) input);;
  results ← run_convert (tempPdfPath r correlationId) (options r correlationId);
  if nothing_converted results then
    throw (Error "No pages converted from PDF")
  else
    pngBuffer ← read_disk (fs.readFileSync (pngPath r correlationId));
    cleanup r correlationId;;
    mret pngBuffer.

Definition convert (req : Request) : Js Response :=
  startTime ← Date_now;
  let correlationId := correlationId_of req in
  try_catch
    (if no_file req then
       mret (bad_request "No PDF file provided" correlationId)
     else
       pngBuffer ← through_files ConvertRoute correlationId (file_buffer req);
       conversion_succeeded startTime correlationId (file_buffer req) pngBuffer)
    (conversion_failed "Conversion" startTime correlationId).

Definition convert_raw (req : Request) : Js Response :=
  startTime ← Date_now;
  let correlationId := correlationId_of req in
  try_catch
    (if no_body req then
       mret (bad_request "No PDF data provided" correlationId)
     else
       pngBuffer ← through_files ConvertRawRoute correlationId (body req);
       conversion_succeeded startTime correlationId (body req) pngBuffer)
    (conversion_failed "Raw conversion" startTime correlationId).

End Handlers.
End Poppler.


(* ===================================================================== *)
(** * The body parser in front of [/convert-raw]                          *)
(* ===================================================================== *)

(** A request as it reaches [express.raw({type: 'application/pdf',
    limit: '10mb'})]. *)
Record Incoming := mkIncoming {
  in_headers : gmap string string;
  has_body : bool;
  raw : list byte;
}.

Definition limit : Z := 10 * 1024 * 1024.

(** The media type of a [Content-Type] value: what stands before the
    first [;], without the spaces around it, in lower case. *)
Definition lower (c : ascii) : ascii :=
  let n := N_of_ascii c in
  if ((65 <=? n) && (n <=? 90))%N then ascii_of_N (n + 32) else c.

Fixpoint lowercase (s : string) : string :=
  match s with
  | EmptyString => EmptyString
  | String c r => String (lower c) (lowercase r)
  end.

Fixpoint before_semicolon (s : string) : string :=
  match s with
  | EmptyString => EmptyString
  | String c r =>
      if Ascii.eqb c ";"%char then EmptyString
      else String c (before_semicolon r)
  end.

Fixpoint drop_spaces (s : string) : string :=
  match s with
  | String c r => if Ascii.eqb c " "%char then drop_spaces r else s
  | EmptyString => EmptyString
  end.

Definition media_type (v : string) : string :=
  lowercase (String.rev (drop_spaces (String.rev (drop_spaces (before_semicolon v))))).

(** [express.raw] as Express 4 ships it: [req.body] starts as the empty
    object; the parser reads the body into a [Buffer] only when there is a
    body and the media type of the request is [application/pdf] (parameters
    and letter case do not count; the syntax of the parameters is not
    checked here), and refuses with status 413 (the handler is not run) a
    body over the limit. *)
Definition express_raw (i : Incoming) : Z + Request :=
  if negb (has_body i) then inr (mkRequest (in_headers i) None JEmptyObject)
  else
    match in_headers i !! "content-type" with
    | Some v =>
        if String.eqb (media_type v) "application/pdf" then
          if limit <? Z.of_nat (length (raw i)) then inl 413
          else inr (mkRequest (in_headers i) None (JBuffer (raw i)))
        else inr (mkRequest (in_headers i) None JEmptyObject)
    | None => inr (mkRequest (in_headers i) None JEmptyObject)
    end.

(* ===================================================================== *)
(** * One deployment: a strategy, two routes                              *)
(* ===================================================================== *)

(** A deployment runs one revision with its library. *)
Inductive Strategy :=
| InProcess
    (pdfToPng : JsVal → PdfToPngConverter.Props →
                JsError + option (list PdfToPngConverter.PngPageOutput))
| OnCanvas
    (getDocument : PdfJs.DocumentInit → JsError + PdfJs.PDFDocumentProxy)
    (toBuffer : PdfJs.Canvas → list byte)
| ExternalProcess
    (pdf_convert : string → PdfPoppler.Options → gmap string Node →
                   (JsError + PdfPoppler.Results) * gmap string Node).

Definition handle (s : Strategy) (r : Route) : Request → Js Response :=
  match s, r with
  | InProcess f, ConvertRoute => PdfToPng.convert f
  | InProcess f, ConvertRawRoute => PdfToPng.convert_raw f
  | OnCanvas g t, ConvertRoute => Canvas.convert g t
  | OnCanvas g t, ConvertRawRoute => Canvas.convert_raw g t
  | ExternalProcess c, ConvertRoute => Poppler.convert c
  | ExternalProcess c, ConvertRawRoute => Poppler.convert_raw c
  end.

(** The payload a route hands to the renderer, and its guard. *)
Definition input_of (r : Route) (req : Request) : JsVal :=
  match r with
  | ConvertRoute => file_buffer req
  | ConvertRawRoute => body req
  end.

Definition guard (r : Route) (req : Request) : bool :=
  match r with
  | ConvertRoute => no_file req
  | ConvertRawRoute => no_body req
  end.

(** ** Reading a run *)

Definition response_of (out : (JsError + Response) * World) : option Response :=
  match out.1 with
  | inr resp => Some resp
  | inl _ => None
  end.

Definition status_of (out : (JsError + Response) * World) : option Z :=
  status <$> response_of out.

Definition image_of (out : (JsError + Response) * World) : option (list byte) :=
  match response_of out with
  | Some resp =>
      match payload resp with
      | Binary b => Some b
      | _ => None
      end
  | None => None
  end.

Fixpoint assoc {A : Type} (k : string) (l : list (string * A)) : option A :=
  match l with
  | [] => None
  | (k', v) :: rest => if String.eqb k k' then Some v else assoc k rest
  end.

Definition json_field (k : string) (out : (JsError + Response) * World)
  : option JsonVal :=
  match response_of out with
  | Some resp =>
      match payload resp with
      | Json fields => assoc k fields
      | _ => None
      end
  | None => None
  end.

Definition header (k : string) (out : (JsError + Response) * World)
  : option HeaderVal :=
  match response_of out with
  | Some resp => assoc k (sent_headers resp)
  | None => None
  end.

(** The library calls made during a run started in [w]. *)
Definition calls_since (w : World) (out : (JsError + Response) * World)
  : list Call :=
  drop (length (calls w)) (calls out.2).

(** The page numbers a handler writes into a library call: the
    [pagesRange] it passes, the argument of [getPage], the [page] option.
    Which pages the library then renders is the library's matter. *)
Definition pages_named (c : Call) : list Z :=
  match c with
  | CallPdfToPng _ props => PdfToPngConverter.pagesRange props
  | CallGetPage n => [n]
  | CallPopplerConvert _ opts => [PdfPoppler.page opts]
  | _ => []
  end.

Definition pages_asked (l : list Call) : list Z :=
  concat (map pages_named l).

(** ** The shape the six handlers share

    Every handler reads the clock, then runs, inside [try]/[catch], its
    guard and its renderer, and answers through [conversion_succeeded] or
    [conversion_failed]. *)

Definition missing (r : Route) : string :=
  match r with
  | ConvertRoute => "No PDF file provided"
  | ConvertRawRoute => "No PDF data provided"
  end.

Definition label (r : Route) : string :=
  match r with
  | ConvertRoute => "Conversion"
  | ConvertRawRoute => "Raw conversion"
  end.

Definition renderer (s : Strategy) (r : Route) (req : Request) : Js (list byte) :=
  match s with
  | InProcess f => PdfToPng.first_page f (input_of r req)
  | OnCanvas g t => Canvas.convertPdfToPng g t (input_of r req) (correlationId_of req)
  | ExternalProcess c => Poppler.through_files c r (correlationId_of req) (input_of r req)
  end.

Definition pipeline (s : Strategy) (r : Route) (req : Request) : Js Response :=
  startTime ← Date_now;
  try_catch
    (if guard r req then
       mret (bad_request (missing r) (correlationId_of req))
     else
       pngBuffer ← renderer s r req;
       conversion_succeeded startTime (correlationId_of req) (input_of r req) pngBuffer)
    (conversion_failed (label r) startTime (correlationId_of req)).

(** The world after one more reading of the clock, after more library
    calls, and after a diagnostic. *)
Definition ticked (w : World) : World := (Date_now w).2.

Definition called (l : list Call) (w : World) : World :=
  mkWorld (clock w) (ticks w) (disk w) (console w) (calls w ++ l) (pdfjsLib w).

Definition logged (l : LogLine) (w : World) : World :=
  mkWorld (clock w) (ticks w) (disk w) (console w ++ [l]) (calls w) (pdfjsLib w).

(** The call of [console.error] that [conversion_failed] makes. *)
Definition failure_line (what correlationId errorMessage : string)
           (processingTime : Z) : LogLine :=
  mkLog Err ("[" +:+ correlationId +:+ "] " +:+ what +:+ " failed after "
             +:+ pretty processingTime +:+ "ms:") (Some errorMessage).

(** The renderers never read the clock. *)
Definition same_clock (w w' : World) : Prop :=
  clock w' = clock w ∧ ticks w' = ticks w.

(** ** The four ways a request ends *)

Inductive Ending (s : Strategy) (r : Route) (req : Request) (w : World)
  : (JsError + Response) * World → Prop :=
| Rejected :
    guard r req = true →
    Ending s r req w
      (inr (bad_request (missing r) (correlationId_of req)), ticked w)
| RendererThrew e w1 :
    guard r req = false →
    renderer s r req (ticked w) = (inl e, w1) →
    Ending s r req w
      (conversion_failed (label r) (clock w (ticks w)) (correlationId_of req) e w1)
| HeaderThrew png w1 :
    guard r req = false →
    renderer s r req (ticked w) = (inr png, w1) →
    js_length (input_of r req) = None →
    Ending s r req w
      (conversion_failed (label r) (clock w (ticks w)) (correlationId_of req)
         (Error "Cannot read properties of undefined (reading 'toString')")
         (ticked w1))
| Sent png w1 n :
    guard r req = false →
    renderer s r req (ticked w) = (inr png, w1) →
    js_length (input_of r req) = Some n →
    Ending s r req w
      (inr (success (correlationId_of req)
                    (pretty (clock w1 (ticks w1) - clock w (ticks w)))
                    (pretty n) (pretty (Z.of_nat (length png))) png),
       ticked w1).

(** The library found no page to render: [pdfToPng] resolves to nothing or
    to an empty array, pdf.js reports [numPages] 0, or the external process
    resolves to an empty result. *)
Definition nothing_rendered (s : Strategy) (r : Route) (req : Request)
           (w : World) : Prop :=
  match s with
  | InProcess f =>
      f (input_of r req) PdfToPng.props = inr None ∨
      f (input_of r req) PdfToPng.props = inr (Some [])
  | OnCanvas g t =>
      ∃ pdf, g (PdfJs.mkInit (input_of r req) false false true true) = inr pdf ∧
             PdfJs.numPages pdf = 0
  | ExternalProcess c =>
      ∃ d res d',
        fs.writeFileSync (Poppler.tempPdfPath r (correlationId_of req))
                         (input_of r req) (disk w) = inr d ∧
        c (Poppler.tempPdfPath r (correlationId_of req))
          (Poppler.options r (correlationId_of req)) d = (inr res, d') ∧
        PdfPoppler.nothing_converted res = true
  end.

Definition nothing_rendered_message (s : Strategy) : string :=
  match s with
  | OnCanvas _ _ => "PDF has no pages"
  | _ => "No pages converted from PDF"
  end.



(** The scratch paths of a request under the external-process strategy. *)
Definition scratch_paths (r : Route) (req : Request) : string * string :=
  (Poppler.tempPdfPath r (correlationId_of req),
   Poppler.tempOutputDir r (correlationId_of req)).

Fixpoint slash_free (s : string) : bool :=
  match s with
  | EmptyString => true
  | String c r => negb (path.is_sep c) && slash_free r
  end.

(* ===================================================================== *)
(** * Stand-in libraries and requests for running the handlers            *)
(* ===================================================================== *)

Module Sample.

(** A toy document format: the bytes [%PDF], then one byte per page. *)
Definition magic : list byte := [x25; x50; x44; x46].

Fixpoint strip (prefix b : list byte) : option (list byte) :=
  match prefix, b with
  | [], rest => Some rest
  | p :: ps, c :: cs => if Byte.eqb p c then strip ps cs else None
  | _ :: _, [] => None
  end.

Definition parse (b : list byte) : option (list byte) := strip magic b.

Definition signature : list byte := [x89; x50; x4e; x47; x0d; x0a; x1a; x0a].

Definition rasterize (p : byte) : list byte := signature ++ [p].

(** Renders the pages of the range that exist. *)
Definition pdfToPng (input : JsVal) (props : PdfToPngConverter.Props)
  : JsError + option (list PdfToPngConverter.PngPageOutput) :=
  match input with
  | JBuffer b =>
      match parse b with
      | Some pages =>
          inr (Some (omap (λ n,
                 if 1 <=? n
                 then PdfToPngConverter.mkPage n ∘ rasterize
                        <$> pages !! Z.to_nat (n - 1)
                 else None) (PdfToPngConverter.pagesRange props)))
      | None => inl (Error "Invalid PDF structure.")
      end
  | _ => inl (Error "The PDF file is empty, i.e. its size is zero bytes.")
  end.

Definition page_proxy (n : Z) (p : byte) : PdfJs.PDFPageProxy :=
  PdfJs.mkPageProxy n
    (λ s, PdfJs.mkViewport (612 * s) (792 * s))
    (λ c _, inr (PdfJs.mkCanvas (PdfJs.canvasWidth c) (PdfJs.canvasHeight c)
                   (PdfJs.fillStyle c) (PdfJs.drawn c ++ [PdfJs.PaintPage n]))).

Definition getDocument (params : PdfJs.DocumentInit)
  : JsError + PdfJs.PDFDocumentProxy :=
  match PdfJs.data params with
  | JBuffer b =>
      match parse b with
      | Some pages =>
          inr (PdfJs.mkDocument (Z.of_nat (length pages))
                 (λ n, if 1 <=? n
                       then match pages !! Z.to_nat (n - 1) with
                            | Some p => inr (page_proxy n p)
                            | None => inl (Error "Invalid page request.")
                            end
                       else inl (Error "Invalid page request.")))
      | None => inl (Error "Invalid PDF structure.")
      end
  | _ => inl (Error "Invalid parameter object: need either .data, .range or .url")
  end.

Definition toBuffer (c : PdfJs.Canvas) : list byte :=
  signature ++ match PdfJs.drawn c with
               | [] => []
               | _ :: _ => [x01]
               end.

(** Writes [page-1.png] into a fresh output directory. *)
Definition pdf_convert (file : string) (opts : PdfPoppler.Options)
           (disk : gmap string Node)
  : (JsError + PdfPoppler.Results) * gmap string Node :=
  match disk !! file with
  | Some (File b) =>
      match parse b with
      | Some (p :: _) =>
          (inr (PdfPoppler.RString "page-1.png"),
           <[path.join (PdfPoppler.out_dir opts) "page-1.png" := File (rasterize p)]>
             (<[PdfPoppler.out_dir opts := Dir]> disk))
      | Some [] => (inr (PdfPoppler.RString EmptyString), disk)
      | None => (inl (Error "Syntax Error: Couldn't find trailer dictionary"), disk)
      end
  | _ => (inl (Error "I/O Error: Couldn't open file"), disk)
  end.

Definition in_process : Strategy := InProcess pdfToPng.
Definition on_canvas : Strategy := OnCanvas getDocument toBuffer.
Definition external_process : Strategy := ExternalProcess pdf_convert.

(** Three documents: three pages, no page, and not a document. *)
Definition three_pages : list byte := magic ++ [x0a; x0b; x0c].
Definition no_pages : list byte := magic.
Definition not_a_pdf : list byte :=
  [x6e; x6f; x74; x2d; x61; x2d; x70; x64; x66].

Definition with_id (id : string) : gmap string string :=
  {[ "x-correlation-id" := id ]}.

(** A multipart upload of [b], and the same bytes as a raw body. *)
Definition upload (hs : gmap string string) (b : list byte) : Request :=
  mkRequest hs (Some (mkFile (JBuffer b))) JUndefined.

Definition posted (hs : gmap string string) (b : list byte) : Request :=
  mkRequest hs None (JBuffer b).

(** A multipart request without the [pdf] field. *)
Definition no_upload (hs : gmap string string) : Request :=
  mkRequest hs None JUndefined.

(** A clock that advances 250 ms per reading, and a disk holding [/tmp]. *)
Definition world : World :=
  mkWorld (λ n, 1000 + 250 * Z.of_nat n) 0 {[ "/tmp" := Dir ]} [] [] false.

End Sample.


(** ** External processes that misbehave *)

Module Faulty.

(** Leaves its artifact where it should, but removes its input file. *)
Definition eats_input (file : string) (opts : PdfPoppler.Options)
           (disk : gmap string Node)
  : (JsError + PdfPoppler.Results) * gmap string Node :=
  (inr (PdfPoppler.RString "page-1.png"),
   <[path.join (PdfPoppler.out_dir opts) "page-1.png" := File Sample.signature]>
     (<[PdfPoppler.out_dir opts := Dir]> (delete file disk))).


End Faulty.

(** ** [pdf-to-png-converter] as published *)

Module Published.

(** [pdfToPng] selects pages by its option [pagesToProcess] and processes
    every page of the document when the options object has no such key.
    The handlers pass [pagesRange] and [strictPaging], which are not options
    of the library and which it does not read: whatever they hold, every
    page is rendered.  The document format and the rasteriser are those of
    [Sample]. *)
Definition pdfToPng (input : JsVal) (props : PdfToPngConverter.Props)
  : JsError + option (list PdfToPngConverter.PngPageOutput) :=
  match input with
  | JBuffer b =>
      match Sample.parse b with
      | Some pages =>
          inr (Some (imap (λ i p, PdfToPngConverter.mkPage (Z.of_nat (S i))
                                    (Sample.rasterize p)) pages))
      | None => inl (Error "Invalid PDF structure.")
      end
  | _ => inl (Error "The PDF file is empty, i.e. its size is zero bytes.")
  end.

Definition in_process : Strategy := InProcess pdfToPng.

End Published.

(* ===================================================================== *)
(** * The production test script                                          *)
(* ===================================================================== *)

(** The script talks to a deployed service over HTTP; what is embedded is
    what it computes itself: the correlation identifiers it sends and the
    checks it makes on the answers. *)
Module ProdTest.

(** [`-${suffix}`] when [suffix] is truthy, the empty string otherwise. *)
Definition suffix_part (suffix : option string) : string :=
  match suffix with
  | Some (String c x) => "-" +:+ String c x
  | _ => EmptyString
  end.

(** [generateCorrelationId(suffix)]; [random] stands for
    [Math.random().toString(36).slice(2)]. *)
Definition generateCorrelationId (random : string) (suffix : option string)
  : Js string :=
  now ← Date_now;
  mret ("test-" +:+ pretty now +:+ "-" +:+ random +:+ suffix_part suffix).

Fixpoint dash_free (s : string) : bool :=
  match s with
  | EmptyString => true
  | String c r => negb (Ascii.eqb c "-"%char) && dash_free r
  end.

(** [body && body.error], where [body] is the parsed JSON of the answer,
    or [{}] when the answer is not JSON. *)
Definition body_error (res : Response) : bool :=
  match payload res with
  | Json fields =>
      match assoc "error" fields with
      | Some (JStr (String _ _)) => true
      | Some (JNum n) => negb (n =? 0)
      | _ => false
      end
  | _ => false
  end.

(** The check of [testConvertMissingFile]; a failed check throws. *)
Definition missing_file_ok (res : Response) : bool :=
  (status res =? 400) && body_error res.

(** The check of [testConvertRawInvalidContent]. *)
Definition invalid_content_ok (res : Response) : bool :=
  ((status res =? 500) || (status res =? 400)) && body_error res.

(** What [testConvertMultipart] and [testConvertRaw] do with an answer:
    they throw on a status outside 200..299, on a content type other than
    [image/png], and on an empty body; otherwise they report the size. *)
Inductive Verdict :=
| ConvertFailed (status : Z)
| UnexpectedContentType (value : option HeaderVal)
| EmptyPngContent
| Passed (size : Z).

Definition body_bytes (res : Response) : list byte :=
  match payload res with
  | Binary b => b
  | _ => []
  end.

Definition convert_verdict (res : Response) : Verdict :=
  if negb ((200 <=? status res) && (status res <=? 299)) then
    ConvertFailed (status res)
  else
    match assoc "Content-Type" (sent_headers res) with
    | Some (HStr "image/png") =>
        if Z.of_nat (length (body_bytes res)) =? 0 then EmptyPngContent
        else Passed (Z.of_nat (length (body_bytes res)))
    | other => UnexpectedContentType other
    end.

End ProdTest.

(* ===================================================================== *)
(** * Properties                                                          *)
(* ===================================================================== *)

Local Arguments pretty : simpl never.
Local Arguments Poppler.tempPdfPath : simpl never.
Local Arguments Poppler.tempOutputDir : simpl never.
Local Arguments Poppler.pngPath : simpl never.
Local Arguments Poppler.options : simpl never.

(** ** The monad *)

Lemma bind_run {A B : Type} (m : Js A) (k : A → Js B) (w : World) :
  (m ≫= k) w =
  match m w with
  | (inr a, w') => k a w'
  | (inl e, w') => (inl e, w')
  end.
Proof. reflexivity. Qed.

Lemma handle_pipeline s r req : handle s r req = pipeline s r req.
Proof. destruct s, r; reflexivity. Qed.

(** The three ways a run of the pipeline can go. *)
Lemma pipeline_rejected s r req w :
  guard r req = true →
  pipeline s r req w =
  (inr (bad_request (missing r) (correlationId_of req)), ticked w).
Proof. intros Hg. unfold pipeline, try_catch. rewrite bind_run. simpl. by rewrite Hg. Qed.

Lemma pipeline_thrown s r req w e w' :
  guard r req = false →
  renderer s r req (ticked w) = (inl e, w') →
  pipeline s r req w =
  conversion_failed (label r) (clock w (ticks w)) (correlationId_of req) e w'.
Proof.
  intros Hg Hr. unfold pipeline, try_catch. rewrite bind_run. simpl.
  rewrite Hg, bind_run. unfold ticked in Hr. simpl in Hr. by rewrite Hr.
Qed.

Lemma pipeline_rendered s r req w png w' :
  guard r req = false →
  renderer s r req (ticked w) = (inr png, w') →
  pipeline s r req w =
  try_catch
    (conversion_succeeded (clock w (ticks w)) (correlationId_of req)
                          (input_of r req) png)
    (conversion_failed (label r) (clock w (ticks w)) (correlationId_of req)) w'.
Proof.
  intros Hg Hr. unfold pipeline, try_catch. rewrite bind_run. simpl.
  rewrite Hg, bind_run. unfold ticked in Hr. simpl in Hr. by rewrite Hr.
Qed.

(** ** The two ways a handler answers after its guard *)

Lemma conversion_failed_run what t0 cid e w :
  conversion_failed what t0 cid e w =
  let msg := str_or (message e) "Unknown conversion error" in
  let ms := clock w (ticks w) - t0 in
  (inr (failure cid msg ms), logged (failure_line what cid msg ms) (ticked w)).
Proof. reflexivity. Qed.

Lemma conversion_succeeded_run t0 cid input png w :
  conversion_succeeded t0 cid input png w =
  match js_length input with
  | Some n =>
      (inr (success cid (pretty (clock w (ticks w) - t0)) (pretty n)
                    (pretty (Z.of_nat (length png))) png),
       ticked w)
  | None =>
      (inl (Error "Cannot read properties of undefined (reading 'toString')"),
       ticked w)
  end.
Proof. destruct input; reflexivity. Qed.

(** ** The renderers *)

Lemma first_page_run f input w :
  PdfToPng.first_page f input w =
  (match f input PdfToPng.props with
   | inr (Some (first :: _)) => inr (PdfToPngConverter.content first)
   | inr _ => inl (Error "No pages converted from PDF")
   | inl e => inl e
   end,
   called [CallPdfToPng input PdfToPng.props] w).
Proof.
  unfold PdfToPng.first_page. rewrite !bind_run. simpl. unfold lift.
  destruct (f input PdfToPng.props) as [e|[[|first rest]|]]; reflexivity.
Qed.

(** Unfolds one renderer down to the library calls it makes. *)
Ltac unfold_js :=
  unfold Canvas.convertPdfToPng, Canvas.initPdfJs,
         Poppler.through_files, Poppler.cleanup, Poppler.run_convert,
         try_catch, on_disk, read_disk, lift, throw, record_call,
         console_warn, console_write, mbind, Js_bind, mret, Js_ret in *.

Ltac split_run :=
  repeat match goal with
         | H : context [match ?x with _ => _ end] |- _ => destruct x eqn:?
         | H : context [if ?x then _ else _] |- _ => destruct x eqn:?
         | H : (_, _) = (_, _) |- _ => inversion H; subst; clear H
         end.

Lemma convertPdfToPng_frame g t input cid w res w' :
  Canvas.convertPdfToPng g t input cid w = (res, w') →
  same_clock w w' ∧ disk w' = disk w ∧ console w' = console w ∧
  ∃ l, calls w' = calls w ++ l ∧
       (pages_asked l = [1] ∨ pages_asked l = [] ∧ ∃ e, res = inl e).
Proof.
  intros H. unfold_js. simpl in H. split_run; simpl;
    (split; [by split|]); (split; [done|]); (split; [done|]);
    rewrite <- ?app_assoc; simpl; eexists; (split; [reflexivity|]);
    cbn; eauto.
Qed.

Lemma through_files_frame c r cid input w res w' :
  Poppler.through_files c r cid input w = (res, w') →
  same_clock w w' ∧
  ∃ l, calls w' = calls w ++ l ∧
       (pages_asked l = [1] ∨ pages_asked l = [] ∧ ∃ e, res = inl e).
Proof.
  intros H. unfold_js. simpl in H. split_run; simpl;
    (split; [by split|]);
    first [ by exists []; rewrite app_nil_r; eauto
          | by eexists; split; [reflexivity|]; left ].
Qed.

Lemma first_page_frame f input w res w' :
  PdfToPng.first_page f input w = (res, w') →
  same_clock w w' ∧ disk w' = disk w ∧ console w' = console w ∧
  calls w' = calls w ++ [CallPdfToPng input PdfToPng.props].
Proof. rewrite first_page_run. intros [= <- <-]. by repeat split. Qed.

(** Whatever the strategy, a renderer leaves the clock alone and asks its
    library for page 1 or for nothing; it asks for page 1 whenever it
    returns an image. *)
Lemma renderer_frame s r req w res w' :
  renderer s r req w = (res, w') →
  same_clock w w' ∧
  ∃ l, calls w' = calls w ++ l ∧
       (pages_asked l = [1] ∨ pages_asked l = [] ∧ ∃ e, res = inl e).
Proof.
  destruct s as [f|g t|c]; simpl; intros H.
  - apply first_page_frame in H as (? & _ & _ & ?). split; [done|].
    eexists; split; [done|]. by left.
  - apply convertPdfToPng_frame in H as (? & _ & _ & ?). by split.
  - by apply through_files_frame in H.
Qed.

Lemma handle_ends s r req w : Ending s r req w (handle s r req w).
Proof.
  rewrite handle_pipeline.
  destruct (guard r req) eqn:Hg.
  { rewrite pipeline_rejected by done. by constructor. }
  destruct (renderer s r req (ticked w)) as [[e|png] w1] eqn:Hr.
  { erewrite pipeline_thrown by done. by constructor. }
  erewrite pipeline_rendered by done.
  unfold try_catch. rewrite conversion_succeeded_run.
  destruct (js_length (input_of r req)) as [n|] eqn:Hn.
  - by econstructor.
  - by econstructor.
Qed.

Lemma calls_since_app w out l :
  calls out.2 = calls w ++ l → calls_since w out = l.
Proof. unfold calls_since. intros ->. by rewrite drop_app_length. Qed.

(** ** Successful conversions *)

Lemma assoc_success cid time original converted png :
  let hs := sent_headers (success cid time original converted png) in
  assoc "Content-Type" hs = Some (HStr "image/png") ∧
  assoc "Content-Length" hs = Some (HNum (Z.of_nat (length png))) ∧
  assoc "X-Processing-Time-Ms" hs = Some (HStr time) ∧
  assoc "X-Correlation-Id" hs = Some (HStr cid) ∧
  assoc "X-Original-Size" hs = Some (HStr original) ∧
  assoc "X-Converted-Size" hs = Some (HStr converted).
Proof. by repeat split. Qed.




(** ** Failures *)

(** Whatever object the library throws, the [catch] block turns it into a
    response: every run ends in one. *)
Lemma handler_answers s r req w :
  ∃ resp, (handle s r req w).1 = inr resp.
Proof.
  destruct (handle_ends s r req w); rewrite ?conversion_failed_run; simpl; eauto.
Qed.

(** The answers are 200, 400 and 500 and nothing else. *)
Lemma handler_statuses s r req w :
  status_of (handle s r req w) = Some 200 ∨
  status_of (handle s r req w) = Some 400 ∨
  status_of (handle s r req w) = Some 500.
Proof.
  destruct (handle_ends s r req w); rewrite ?conversion_failed_run; simpl; eauto.
Qed.

(** A status-500 body carries the four fields. *)
Lemma failure_has_four_fields s r req w :
  status_of (handle s r req w) = Some 500 →
  json_field "error" (handle s r req w) = Some (JStr "PDF conversion failed") ∧
  (∃ msg, json_field "message" (handle s r req w) = Some (JStr msg)) ∧
  json_field "correlationId" (handle s r req w)
    = Some (JStr (correlationId_of req)) ∧
  (∃ ms, json_field "processingTimeMs" (handle s r req w) = Some (JNum ms)).
Proof.
  destruct (handle_ends s r req w); rewrite ?conversion_failed_run; simpl;
    try done; intros _; repeat split; eauto.
Qed.

(** A status-400 body carries [error] and [correlationId] only. *)
Lemma rejection_fields s r req w :
  status_of (handle s r req w) = Some 400 →
  response_of (handle s r req w)
    = Some (bad_request (missing r) (correlationId_of req)).
Proof.
  destruct (handle_ends s r req w); rewrite ?conversion_failed_run; simpl; done.
Qed.

(** C5.  A [POST /convert] without the [pdf] field, under any strategy: the
    answer has status 400 and its body holds [error] and [correlationId];
    [message] and [processingTimeMs] are absent. *)
Theorem rejection_lacks_message_and_time s hs w :
  let out := handle s ConvertRoute (Sample.no_upload hs) w in
  status_of out = Some 400 ∧
  json_field "error" out = Some (JStr "No PDF file provided") ∧
  json_field "correlationId" out
    = Some (JStr (str_or (hs !! "x-correlation-id") "unknown")) ∧
  json_field "message" out = None ∧
  json_field "processingTimeMs" out = None.
Proof.
  intros out. subst out. rewrite handle_pipeline, pipeline_rejected by done.
  by repeat split.
Qed.

(** ** Payloads that slip past the guards *)

(** A payload with no [length] that passes its guard never gets a 400: the
    renderer throws, or building [X-Original-Size] does. *)
Lemma no_length_answers_500 s r req w :
  guard r req = false →
  js_length (input_of r req) = None →
  status_of (handle s r req w) = Some 500.
Proof.
  intros Hg Hn.
  destruct (handle_ends s r req w); rewrite ?conversion_failed_run; simpl;
    first [done | congruence].
Qed.

Lemma in_process_calls f r req w :
  guard r req = false →
  calls_since w (handle (InProcess f) r req w)
    = [CallPdfToPng (input_of r req) PdfToPng.props].
Proof.
  intros Hg. apply calls_since_app.
  destruct (handle_ends (InProcess f) r req w) as [?|e w1 _ Hr|png w1 _ Hr _|png w1 n _ Hr _];
    [congruence|..]; simpl in Hr;
    apply first_page_frame in Hr as (_ & _ & _ & Hc);
    rewrite ?conversion_failed_run; simpl; by rewrite Hc.
Qed.

(** C10.  A request to [/convert-raw] whose content type is not
    [application/pdf] leaves the parser with the empty object in
    [req.body]; its [length] is undefined, the guard does not fire, and the
    answer has status 500 under every strategy.  The in-process library is
    called with the empty object: either it throws, or building
    [X-Original-Size] does. *)
Theorem unparsed_body_answers_500 :
  ∃ i req,
    in_headers i !! "content-type" ≠ Some "application/pdf" ∧
    express_raw i = inr req ∧
    body req = JEmptyObject ∧
    js_length (body req) = None ∧
    no_body req = false ∧
    (∀ s w, status_of (handle s ConvertRawRoute req w) = Some 500) ∧
    (∀ pdfToPng w,
       calls_since w (PdfToPng.convert_raw pdfToPng req w)
       = [CallPdfToPng JEmptyObject PdfToPng.props]).
Proof.
  exists (mkIncoming {[ "content-type" := "text/plain" ]} true Sample.three_pages).
  eexists. split; [done|]. split; [reflexivity|].
  repeat split.
  - intros s w. by apply no_length_answers_500.
  - intros pdfToPng w. by apply (in_process_calls pdfToPng ConvertRawRoute).
Qed.

(** C1.  An empty file uploaded to [/convert]: the guard does not fire and
    the answer is never the 400 of a missing payload; the in-process
    library is called with the empty buffer, the canvas revision opens it
    as a document, and the external-process revision writes it to
    [/tmp/unknown.pdf], where it is left behind. *)
Theorem empty_upload_reaches_renderer :
  (∀ s hs w,
     guard ConvertRoute (Sample.upload hs []) = false ∧
     status_of (handle s ConvertRoute (Sample.upload hs []) w) ≠ Some 400) ∧
  (∀ pdfToPng hs w,
     calls_since w (handle (InProcess pdfToPng) ConvertRoute (Sample.upload hs []) w)
       = [CallPdfToPng (JBuffer []) PdfToPng.props]) ∧
  calls_since Sample.world
    (handle Sample.on_canvas ConvertRoute (Sample.upload ∅ []) Sample.world)
    = [CallGetDocument (PdfJs.mkInit (JBuffer []) false false true true)] ∧
  disk (handle Sample.external_process ConvertRoute (Sample.upload ∅ [])
          Sample.world).2 !! "/tmp/unknown.pdf" = Some (File []) ∧
  (* the sibling route does reject the empty buffer *)
  (∀ s hs w,
     status_of (handle s ConvertRawRoute (Sample.posted hs []) w) = Some 400 ∧
     calls_since w (handle s ConvertRawRoute (Sample.posted hs []) w) = []).
Proof.
  split; [|split; [|split; [|split]]].
  - intros s hs w. split; [done|].
    destruct (handle_ends s ConvertRoute (Sample.upload hs []) w);
      rewrite ?conversion_failed_run; simpl; done.
  - intros f hs w. by apply in_process_calls.
  - reflexivity.
  - vm_compute. reflexivity.
  - intros s hs w. rewrite handle_pipeline, pipeline_rejected by done.
    split; [done|]. unfold calls_since. simpl. by rewrite drop_all.
Qed.

(** ** Pages rendered by the first revision *)

(** C2.  A document of several pages uploaded to the revision that uses
    [pdf-to-png-converter]: the handler names page 1 in [pagesRange], an
    option the library does not have; the library renders every page of
    the document, and the handler sends the first of the images.  The
    canvas revision, given the same document, fetches and renders page 1
    alone. *)
Theorem every_page_is_rendered p pages hs w :
  let doc := Sample.magic ++ p :: pages in
  let out := handle Published.in_process ConvertRoute (Sample.upload hs doc) w in
  calls_since w out = [CallPdfToPng (JBuffer doc) PdfToPng.props] ∧
  PdfToPngConverter.pagesRange PdfToPng.props = [1] ∧
  (∃ rendered,
     Published.pdfToPng (JBuffer doc) PdfToPng.props = inr (Some rendered) ∧
     length rendered = S (length pages)) ∧
  status_of out = Some 200 ∧
  image_of out = Some (Sample.rasterize p) ∧
  calls_since w (handle Sample.on_canvas ConvertRoute (Sample.upload hs doc) w)
  = [CallGetDocument (PdfJs.mkInit (JBuffer doc) false false true true);
     CallGetPage 1;
     CallRender (PdfJs.mkViewport (612 * 2) (792 * 2));
     CallPageCleanup; CallDestroy].
Proof.
  intros doc out.
  split; [by apply (in_process_calls Published.pdfToPng ConvertRoute)|].
  split; [done|].
  split.
  { eexists. split; [reflexivity|]. by rewrite length_imap. }
  split; [done|]. split; [done|].
  apply calls_since_app. subst doc. unfold handle, Canvas.convert.
  unfold_js. simpl.
  destruct (pdfjsLib w); simpl; rewrite <- !app_assoc; reflexivity.
Qed.

(** A missing payload is turned away before anything else happens: status
    400, no library call, the disk and the console as they were. *)
Lemma missing_payload_rejected s r req w :
  guard r req = true →
  status_of (handle s r req w) = Some 400 ∧
  calls_since w (handle s r req w) = [] ∧
  disk (handle s r req w).2 = disk w ∧
  console (handle s r req w).2 = console w.
Proof.
  intros Hg. rewrite handle_pipeline, pipeline_rejected by done.
  repeat split. unfold calls_since. simpl. by rewrite drop_all.
Qed.

Lemma missing_payload_guard r req :
  input_of r req = JUndefined → guard r req = true.
Proof.
  destruct r; simpl; unfold no_file, no_body, file_buffer.
  - destruct (file req) as [f|]; [|done]. by intros ->.
  - by intros ->.
Qed.

(** ** Documents without pages *)

Lemma nothing_rendered_throws s r req w :
  nothing_rendered s r req w →
  ∃ w1, renderer s r req (ticked w)
        = (inl (Error (nothing_rendered_message s)), w1).
Proof.
  destruct s as [f|g t|c]; simpl.
  - intros [H|H]; rewrite first_page_run, H; eauto.
  - intros (pdf & Hg & Hn). unfold_js. simpl. rewrite Hg. simpl. rewrite Hn.
    simpl. eauto.
  - intros (d & res & d' & Hw & Hc & Hn). unfold_js. simpl.
    rewrite Hw. simpl. rewrite Hc. simpl. rewrite Hn. eauto.
Qed.

(** C6 (as the handlers have it).  When the library finds no page, the
    answer is the generic failure: status 500, [error] the same string as
    for every conversion failure, [message] telling that no page came out,
    and no field naming a kind. *)
Theorem no_pages_is_generic_failure s r req w :
  guard r req = false →
  nothing_rendered s r req w →
  status_of (handle s r req w) = Some 500 ∧
  json_field "error" (handle s r req w) = Some (JStr "PDF conversion failed") ∧
  json_field "message" (handle s r req w)
    = Some (JStr (nothing_rendered_message s)) ∧
  json_field "kind" (handle s r req w) = None.
Proof.
  intros Hg [w1 Hr]%nothing_rendered_throws.
  rewrite handle_pipeline. erewrite pipeline_thrown by done.
  rewrite conversion_failed_run. by destruct s.
Qed.

Lemma no_pages_is_generic_failure_witness :
  status_of (handle Sample.in_process ConvertRoute
               (Sample.upload ∅ Sample.no_pages) Sample.world) = Some 500 ∧
  json_field "error" (handle Sample.in_process ConvertRoute
               (Sample.upload ∅ Sample.no_pages) Sample.world)
    = Some (JStr "PDF conversion failed") ∧
  json_field "message" (handle Sample.in_process ConvertRoute
               (Sample.upload ∅ Sample.no_pages) Sample.world)
    = Some (JStr (nothing_rendered_message Sample.in_process)) ∧
  json_field "kind" (handle Sample.in_process ConvertRoute
               (Sample.upload ∅ Sample.no_pages) Sample.world) = None.
Proof.
  apply (no_pages_is_generic_failure Sample.in_process ConvertRoute
           (Sample.upload ∅ Sample.no_pages) Sample.world).
  - reflexivity.
  - right. reflexivity.
Defined.

(** A document without pages and bytes that are no document at all get
    answers that differ in [message] only: the same status, the same
    [error], and nothing that names the kind of failure. *)
Lemma no_pages_kind_collapsed :
  let zero := handle Sample.in_process ConvertRoute
                (Sample.upload ∅ Sample.no_pages) Sample.world in
  let bad := handle Sample.in_process ConvertRoute
               (Sample.upload ∅ Sample.not_a_pdf) Sample.world in
  nothing_rendered Sample.in_process ConvertRoute
    (Sample.upload ∅ Sample.no_pages) Sample.world ∧
  json_field "kind" zero = None ∧
  json_field "error" zero ≠ Some (JStr "NoPagesRendered") ∧
  status_of zero = status_of bad ∧
  json_field "error" zero = json_field "error" bad.
Proof. repeat split; [by right|done]. Qed.

(** ** Scratch paths *)

Lemma string_app_length s t :
  String.length (s +:+ t) = (String.length s + String.length t)%nat.
Proof. induction s as [|c s IH]; simpl; [done|]. unfold String.app in *. simpl. by rewrite IH. Qed.

Lemma string_app_inv_tail s1 s2 t : s1 +:+ t = s2 +:+ t → s1 = s2.
Proof.
  revert s2. induction s1 as [|c s1 IH]; intros [|d s2] H.
  - done.
  - apply (f_equal String.length) in H.
    rewrite !string_app_length in H. simpl in H. lia.
  - apply (f_equal String.length) in H.
    rewrite !string_app_length in H. simpl in H. lia.
  - unfold String.app in H. simpl in H. injection H as -> H.
    f_equal. by apply IH.
Qed.

Lemma slash_free_app s t :
  slash_free (s +:+ t) = slash_free s && slash_free t.
Proof.
  induction s as [|c s IH]; [done|]. unfold String.app in *. simpl.
  rewrite IH. by rewrite andb_assoc.
Qed.

Lemma segments_slash_free s : slash_free s = true → path.segments s = [s].
Proof.
  induction s as [|c s IH]; simpl; [done|].
  intros [Hc Hs]%andb_true_iff. apply negb_true_iff in Hc. rewrite Hc.
  by rewrite IH.
Qed.

Lemma ends_with_sep_slash_free s :
  slash_free s = true → path.ends_with_sep s = false.
Proof.
  induction s as [|c s IH]; simpl; [done|].
  intros [Hc Hs]%andb_true_iff. apply negb_true_iff in Hc.
  destruct s; [done|]. by apply IH.
Qed.

Lemma ends_with_sep_cons c s :
  s ≠ EmptyString → path.ends_with_sep (String c s) = path.ends_with_sep s.
Proof. by destruct s. Qed.

(** Joining [/tmp] with one plain file name only puts the separator in. *)
Lemma join_tmp name :
  slash_free name = true →
  name ≠ EmptyString → name ≠ "." → name ≠ ".." →
  path.join "/tmp" name = "/tmp/" +:+ name.
Proof.
  intros Hfree Hne Hdot Hdots. unfold path.join.
  apply String.eqb_neq in Hne as Hne'. rewrite Hne'. simpl.
  change ("/tmp" +:+ "/" +:+ name) with ("/tmp/" +:+ name).
  unfold path.normalize.
  change ("/tmp/" +:+ name) with
    (String "/" (String "t" (String "m" (String "p" (String "/" name))))).
  cbn [String.eqb Ascii.eqb Bool.eqb path.starts_with_sep path.is_sep negb].
  rewrite !ends_with_sep_cons by (by destruct name).
  rewrite ends_with_sep_slash_free by done.
  cbn [path.segments path.is_sep Ascii.eqb Bool.eqb].
  rewrite segments_slash_free by done.
  cbn [path.resolve String.eqb Ascii.eqb Bool.eqb orb].
  rewrite Hne'.
  apply String.eqb_neq in Hdot as ->. apply String.eqb_neq in Hdots as ->.
  reflexivity.
Qed.

Lemma not_short s t :
  (2 < String.length t)%nat →
  s +:+ t ≠ EmptyString ∧ s +:+ t ≠ "." ∧ s +:+ t ≠ "..".
Proof.
  intros Ht. repeat split; intros H; apply (f_equal String.length) in H;
    rewrite string_app_length in H; simpl in H; lia.
Qed.

Lemma tempPdfPath_plain r cid :
  slash_free cid = true →
  Poppler.tempPdfPath r cid
  = "/tmp/" +:+ cid +:+ match r with
                        | ConvertRoute => ".pdf"
                        | ConvertRawRoute => "-raw.pdf"
                        end.
Proof.
  intros Hfree. unfold Poppler.tempPdfPath.
  destruct r; (apply join_tmp; [by rewrite slash_free_app, Hfree|..]);
    apply not_short; simpl; lia.
Qed.

Lemma string_app_nil_r s : s +:+ EmptyString = s.
Proof. induction s as [|c s IH]; [done|]. unfold String.app in *. simpl. by rewrite IH. Qed.

Lemma tempOutputDir_plain r cid :
  slash_free cid = true →
  Poppler.tempOutputDir r cid
  = "/tmp/output-" +:+ cid +:+ match r with
                               | ConvertRoute => EmptyString
                               | ConvertRawRoute => "-raw"
                               end.
Proof.
  intros Hfree. unfold Poppler.tempOutputDir.
  assert (∀ t, slash_free t = true →
               path.join "/tmp" ("output-" +:+ t) = "/tmp/output-" +:+ t) as Hjoin.
  { intros t Ht. apply join_tmp.
    - exact Ht.
    - change ("output-" +:+ t) with (String "o" ("utput-" +:+ t)). done.
    - change ("output-" +:+ t) with (String "o" ("utput-" +:+ t)). done.
    - change ("output-" +:+ t) with (String "o" ("utput-" +:+ t)). done. }
  destruct r.
  - by rewrite string_app_nil_r, Hjoin.
  - apply Hjoin. by rewrite slash_free_app, Hfree.
Qed.

(** C3 (as the handlers have it).  On one route, the temporary input file
    and the output directory are functions of the correlation identifier
    alone: for identifiers without a [/], two requests get the same input
    file, and the same output directory, exactly when their identifiers
    (the literal [unknown] when the header is absent or empty) are equal. *)
Theorem scratch_paths_follow_id r req1 req2 :
  slash_free (correlationId_of req1) = true →
  slash_free (correlationId_of req2) = true →
  ((scratch_paths r req1).1 = (scratch_paths r req2).1
   ↔ correlationId_of req1 = correlationId_of req2) ∧
  ((scratch_paths r req1).2 = (scratch_paths r req2).2
   ↔ correlationId_of req1 = correlationId_of req2).
Proof.
  intros H1 H2. unfold scratch_paths. simpl.
  rewrite !tempPdfPath_plain, !tempOutputDir_plain by done.
  split; (split; [|by intros ->]); intros H.
  - apply (inj (String.app "/tmp/")) in H. by apply string_app_inv_tail in H.
  - apply (inj (String.app "/tmp/output-")) in H.
    by apply string_app_inv_tail in H.
Qed.

Lemma scratch_paths_follow_id_witness :
  ((scratch_paths ConvertRoute (Sample.upload (Sample.with_id "req-1") Sample.three_pages)).1
   = (scratch_paths ConvertRoute (Sample.upload (Sample.with_id "req-2") Sample.three_pages)).1
   ↔ correlationId_of (Sample.upload (Sample.with_id "req-1") Sample.three_pages)
     = correlationId_of (Sample.upload (Sample.with_id "req-2") Sample.three_pages)) ∧
  ((scratch_paths ConvertRoute (Sample.upload (Sample.with_id "req-1") Sample.three_pages)).2
   = (scratch_paths ConvertRoute (Sample.upload (Sample.with_id "req-2") Sample.three_pages)).2
   ↔ correlationId_of (Sample.upload (Sample.with_id "req-1") Sample.three_pages)
     = correlationId_of (Sample.upload (Sample.with_id "req-2") Sample.three_pages)).
Proof.
  apply (scratch_paths_follow_id ConvertRoute
           (Sample.upload (Sample.with_id "req-1") Sample.three_pages)
           (Sample.upload (Sample.with_id "req-2") Sample.three_pages));
    reflexivity.
Defined.

(** Two different uploads without the header, and two with the same
    header, are given the same input file and the same output directory. *)
Lemma anonymous_requests_share_scratch_paths :
  Sample.upload ∅ Sample.three_pages ≠ Sample.upload ∅ Sample.not_a_pdf ∧
  scratch_paths ConvertRoute (Sample.upload ∅ Sample.three_pages)
    = ("/tmp/unknown.pdf", "/tmp/output-unknown") ∧
  scratch_paths ConvertRoute (Sample.upload ∅ Sample.not_a_pdf)
    = ("/tmp/unknown.pdf", "/tmp/output-unknown") ∧
  scratch_paths ConvertRoute (Sample.upload (Sample.with_id "job") Sample.three_pages)
    = scratch_paths ConvertRoute (Sample.upload (Sample.with_id "job") Sample.not_a_pdf).
Proof. repeat split; [discriminate|..]; vm_compute; reflexivity. Qed.

(** Identifiers with a [/] are normalised away, and the suffix of the raw
    route can be part of an identifier: different identifiers, same file. *)
Lemma scratch_paths_need_plain_ids :
  Poppler.tempPdfPath ConvertRoute "a/../b" = Poppler.tempPdfPath ConvertRoute "b" ∧
  Poppler.tempPdfPath ConvertRoute "x-raw" = Poppler.tempPdfPath ConvertRawRoute "x".
Proof. split; vm_compute; reflexivity. Qed.

(** ** Cleanup under the external-process strategy *)

(** The cleanup block never throws: a failure inside it ends as a warning
    on the console. *)
Lemma cleanup_never_throws r cid w :
  ∃ w', Poppler.cleanup r cid w = (inr tt, w') ∧
        (console w' = console w ∨ ∃ line, console w' = console w ++ [line]).
Proof.
  unfold_js. simpl.
  destruct (fs.unlinkSync _ (disk w)) as [e1|d1]; simpl;
    [eexists; split; [done|]; right; by eexists|].
  destruct (fs.unlinkSync _ d1) as [e2|d2]; simpl;
    [eexists; split; [done|]; right; by eexists|].
  destruct (fs.rmdirSync _ d2) as [e3|d3]; simpl;
    [eexists; split; [done|]; right; by eexists|].
  eexists; split; [done|]. by left.
Qed.

(** When the external process rejects its input, the handler answers 500
    and leaves the disk as the process left it: nothing is removed. *)
Lemma rejected_process_skips_cleanup c r req w d e d' :
  guard r req = false →
  fs.writeFileSync (Poppler.tempPdfPath r (correlationId_of req))
                   (input_of r req) (disk w) = inr d →
  c (Poppler.tempPdfPath r (correlationId_of req))
    (Poppler.options r (correlationId_of req)) d = (inl e, d') →
  status_of (handle (ExternalProcess c) r req w) = Some 500 ∧
  disk (handle (ExternalProcess c) r req w).2 = d'.
Proof.
  intros Hg Hw Hc. rewrite handle_pipeline.
  assert (∃ w1, renderer (ExternalProcess c) r req (ticked w) = (inl e, w1) ∧
                disk w1 = d') as (w1 & Hr & Hd).
  { simpl. unfold_js. simpl. rewrite Hw. simpl. rewrite Hc. eauto. }
  erewrite pipeline_thrown by done. rewrite conversion_failed_run. by simpl.
Qed.

(** C4.  An upload that is no document, handled by the external-process
    revision: the temporary input file is written, the process rejects it,
    the handler answers 500, and [/tmp/unknown.pdf] is still on the disk.
    The same happens for a document without pages.  On the success path
    the three scratch entries are removed. *)
Theorem failed_conversion_leaves_input_file :
  let bad := handle Sample.external_process ConvertRoute
               (Sample.upload ∅ Sample.not_a_pdf) Sample.world in
  let zero := handle Sample.external_process ConvertRawRoute
                (Sample.posted ∅ Sample.no_pages) Sample.world in
  let good := handle Sample.external_process ConvertRoute
                (Sample.upload ∅ Sample.three_pages) Sample.world in
  disk Sample.world !! "/tmp/unknown.pdf" = None ∧
  status_of bad = Some 500 ∧
  disk bad.2 !! "/tmp/unknown.pdf" = Some (File Sample.not_a_pdf) ∧
  status_of zero = Some 500 ∧
  disk zero.2 !! "/tmp/unknown-raw.pdf" = Some (File Sample.no_pages) ∧
  status_of good = Some 200 ∧
  disk good.2 = disk Sample.world.
Proof.
  repeat split; vm_compute; reflexivity.
Qed.

(** ** The image as a function of the payload *)












(** Two strategies need not agree: the stand-in libraries encode the first
    page of the same document differently. *)
Lemma strategies_may_differ :
  image_of (handle Sample.in_process ConvertRoute
              (Sample.upload ∅ Sample.three_pages) Sample.world)
  ≠ image_of (handle Sample.on_canvas ConvertRoute
                (Sample.upload ∅ Sample.three_pages) Sample.world).
Proof. vm_compute. discriminate. Qed.

(* ===================================================================== *)
(** * Further properties of the handlers                                  *)
(* ===================================================================== *)

(** ** What a renderer does to the console and the disk *)

Lemma renderer_console s r req w res w' :
  renderer s r req w = (res, w') →
  ∃ l, console w' = console w ++ l ∧
       Forall (λ x, level x = Warn) l ∧ (length l ≤ 1)%nat.
Proof.
  destruct s as [f|g t|c]; simpl; intros H.
  - apply first_page_frame in H as (_ & _ & -> & _).
    exists []. rewrite app_nil_r. split; [done|]. split; [constructor|simpl; lia].
  - apply convertPdfToPng_frame in H as (_ & _ & -> & _).
    exists []. rewrite app_nil_r. split; [done|]. split; [constructor|simpl; lia].
  - unfold_js. simpl in H. split_run; simpl;
      first [ by (exists []; rewrite app_nil_r;
                  split; [done|]; split; [constructor|simpl; lia])
            | by (eexists [_]; split; [reflexivity|];
                  split; [by repeat constructor|simpl; lia]) ].
Qed.

Lemma renderer_disk_in_memory s r req w res w' :
  (∀ c, s ≠ ExternalProcess c) →
  renderer s r req w = (res, w') → disk w' = disk w.
Proof.
  destruct s as [f|g t|c]; simpl; intros Hs H.
  - by apply first_page_frame in H as (_ & -> & _).
  - by apply convertPdfToPng_frame in H as (_ & -> & _).
  - by destruct (Hs c).
Qed.

(** ** The shape of every answer *)

(** X1.  Every request that reaches a handler is answered, whatever object
    the library throws (an [Error] or any other object, with or without a
    message): with the image and status 200, with the two-field body and
    status 400, or with the four-field body and status 500. *)
Theorem every_request_is_answered s r req w :
  ∃ resp,
    (handle s r req w).1 = inr resp ∧
    ((status resp = 200 ∧ ∃ png, payload resp = Binary png) ∨
     (status resp = 400 ∧
      payload resp = Json [("error", JStr (missing r));
                           ("correlationId", JStr (correlationId_of req))] ∧
      sent_headers resp = []) ∨
     (status resp = 500 ∧
      ∃ msg ms,
        payload resp = Json [("error", JStr "PDF conversion failed");
                             ("message", JStr msg);
                             ("correlationId", JStr (correlationId_of req));
                             ("processingTimeMs", JNum ms)] ∧
        sent_headers resp = [])).
Proof.
  destruct (handle_ends s r req w) as [Hg|e w1 Hg Hr|png w1 Hg Hr Hn|png w1 n Hg Hr Hn];
    rewrite ?conversion_failed_run; simpl; eexists; (split; [reflexivity|]); simpl.
  - right; left. by repeat split.
  - right; right. split; [done|]. by do 2 eexists.
  - right; right. split; [done|]. by do 2 eexists.
  - left. split; [done|]. by eexists.
Qed.

(** X2.  The correlation identifier is never empty, and every answer carries it:
    in the header [X-Correlation-Id] of a 200, in the field
    [correlationId] of a 400 or a 500. *)
Theorem answers_echo_correlation_id s r req w :
  correlationId_of req ≠ EmptyString ∧
  (headers req !! "x-correlation-id" = None ∨
   headers req !! "x-correlation-id" = Some EmptyString ∨
   headers req !! "x-correlation-id" = Some (correlationId_of req)) ∧
  (status_of (handle s r req w) = Some 200 ∧
   header "X-Correlation-Id" (handle s r req w)
     = Some (HStr (correlationId_of req))
   ∨
   status_of (handle s r req w) ≠ Some 200 ∧
   json_field "correlationId" (handle s r req w)
     = Some (JStr (correlationId_of req))).
Proof.
  split; [|split].
  - unfold correlationId_of, str_or.
    by destruct (headers req !! "x-correlation-id") as [[|c x]|].
  - unfold correlationId_of, str_or.
    destruct (headers req !! "x-correlation-id") as [[|c x]|]; auto.
  - destruct (handle_ends s r req w) as [Hg|e w1 Hg Hr|png w1 Hg Hr Hn|png w1 n Hg Hr Hn];
      rewrite ?conversion_failed_run; simpl; [by right..|by left].
Qed.

(** ** Rejections *)



(** ** The console *)

(** X5.  A run calls [console.warn] at most once (the cleanup warning)
    and, exactly when it answers 500, [console.error] once after it; the
    arguments of that call are the line made of the correlation identifier,
    the label of the route and the elapsed time, and the message, the same
    time and message that are in the body. *)
Theorem failure_is_logged s r req w :
  ∃ warnings,
    Forall (λ x, level x = Warn) warnings ∧
    (length warnings ≤ 1)%nat ∧
    (status_of (handle s r req w) ≠ Some 500 ∧
     console (handle s r req w).2 = console w ++ warnings
     ∨
     status_of (handle s r req w) = Some 500 ∧
     ∃ msg ms,
       console (handle s r req w).2
       = console w ++ warnings
           ++ [failure_line (label r) (correlationId_of req) msg ms] ∧
       json_field "message" (handle s r req w) = Some (JStr msg) ∧
       json_field "processingTimeMs" (handle s r req w) = Some (JNum ms)).
Proof.
  destruct (handle_ends s r req w) as [Hg|e w1 Hg Hr|png w1 Hg Hr Hn|png w1 n Hg Hr Hn];
    rewrite ?conversion_failed_run; simpl.
  - exists []. rewrite app_nil_r. split; [constructor|]. split; [simpl; lia|].
    by left.
  - apply renderer_console in Hr as (l & Hl & Hw & Hlen). simpl in Hl.
    exists l. split; [done|]. split; [done|]. right. split; [done|].
    do 2 eexists. rewrite Hl, <- app_assoc. by repeat split.
  - apply renderer_console in Hr as (l & Hl & Hw & Hlen). simpl in Hl.
    exists l. split; [done|]. split; [done|]. right. split; [done|].
    do 2 eexists. rewrite Hl, <- app_assoc. by repeat split.
  - apply renderer_console in Hr as (l & Hl & Hw & Hlen). simpl in Hl.
    exists l. split; [done|]. split; [done|]. by left.
Qed.

(** ** The clock *)

(** X6.  A handler reads the clock once when it rejects, twice when it sends the
    image, and twice or three times when it answers 500; the
    [processingTimeMs] of a 500 is the last reading minus the first, with no
    floor at zero. *)
Theorem elapsed_time_is_last_reading_minus_first s r req w :
  clock (handle s r req w).2 = clock w ∧
  (status_of (handle s r req w) = Some 400 ∧
   ticks (handle s r req w).2 = S (ticks w)
   ∨
   status_of (handle s r req w) = Some 200 ∧
   ticks (handle s r req w).2 = S (S (ticks w))
   ∨
   status_of (handle s r req w) = Some 500 ∧
   (ticks (handle s r req w).2 = S (S (ticks w)) ∨
    ticks (handle s r req w).2 = S (S (S (ticks w)))) ∧
   json_field "processingTimeMs" (handle s r req w)
   = Some (JNum (clock w (pred (ticks (handle s r req w).2))
                 - clock w (ticks w)))).
Proof.
  destruct (handle_ends s r req w) as [Hg|e w1 Hg Hr|png w1 Hg Hr Hn|png w1 n Hg Hr Hn];
    rewrite ?conversion_failed_run; simpl.
  - split; [done|]. by left.
  - apply renderer_frame in Hr as ([Hc Ht] & _). simpl in Hc, Ht.
    rewrite Hc, Ht. split; [done|]. right; right. by repeat split; auto.
  - apply renderer_frame in Hr as ([Hc Ht] & _). simpl in Hc, Ht.
    rewrite Hc, Ht. split; [done|]. right; right. by repeat split; auto.
  - apply renderer_frame in Hr as ([Hc Ht] & _). simpl in Hc, Ht.
    rewrite Hc, Ht. split; [done|]. right; left. by repeat split.
Qed.

(** ** The in-process revision, read off the library's result *)

(** X7.  With a [Buffer] past the guard, the in-process revision answers by what
    [pdfToPng] did: a rejection becomes a 500 whose [message] is the
    library's own message, unchanged ([Unknown conversion error] when it has
    none); no page becomes a 500; one page or more becomes a 200 carrying the
    first page, the others being dropped. *)
Theorem in_process_answer_follows_library pdfToPng r req w b :
  guard r req = false →
  input_of r req = JBuffer b →
  match pdfToPng (JBuffer b) PdfToPng.props with
  | inl e =>
      status_of (handle (InProcess pdfToPng) r req w) = Some 500 ∧
      json_field "message" (handle (InProcess pdfToPng) r req w)
      = Some (JStr (str_or (message e) "Unknown conversion error"))
  | inr (Some (first :: _)) =>
      status_of (handle (InProcess pdfToPng) r req w) = Some 200 ∧
      image_of (handle (InProcess pdfToPng) r req w)
      = Some (PdfToPngConverter.content first)
  | inr _ =>
      status_of (handle (InProcess pdfToPng) r req w) = Some 500 ∧
      json_field "message" (handle (InProcess pdfToPng) r req w)
      = Some (JStr "No pages converted from PDF")
  end.
Proof.
  intros Hg Hin. rewrite handle_pipeline.
  pose proof (first_page_run pdfToPng (JBuffer b) (ticked w)) as Hrun.
  destruct (pdfToPng (JBuffer b) PdfToPng.props) as [e|[[|first rest]|]] eqn:Hf.
  - erewrite pipeline_thrown; [|done|simpl; rewrite Hin; exact Hrun].
    by rewrite conversion_failed_run.
  - erewrite pipeline_thrown; [|done|simpl; rewrite Hin; exact Hrun].
    by rewrite conversion_failed_run.
  - erewrite pipeline_rendered; [|done|simpl; rewrite Hin; exact Hrun].
    unfold try_catch. rewrite conversion_succeeded_run, Hin. done.
  - erewrite pipeline_thrown; [|done|simpl; rewrite Hin; exact Hrun].
    by rewrite conversion_failed_run.
Qed.

(** A library that throws an error without a message, on the raw route. *)
Lemma in_process_answer_follows_library_witness :
  status_of (handle (InProcess (λ _ _, inl (mkError None))) ConvertRawRoute
               (Sample.posted ∅ Sample.three_pages) Sample.world) = Some 500 ∧
  json_field "message"
    (handle (InProcess (λ _ _, inl (mkError None))) ConvertRawRoute
       (Sample.posted ∅ Sample.three_pages) Sample.world)
  = Some (JStr (str_or (message (mkError None)) "Unknown conversion error")).
Proof.
  apply (in_process_answer_follows_library (λ _ _, inl (mkError None))
           ConvertRawRoute (Sample.posted ∅ Sample.three_pages) Sample.world
           Sample.three_pages); reflexivity.
Defined.

(** ** The canvas revision and its calls into pdf.js *)

Lemma convertPdfToPng_calls g t input cid w res w' :
  Canvas.convertPdfToPng g t input cid w = (res, w') →
  ∃ l vp,
    calls w' = calls w ++ l ∧
    let full := [CallGetDocument (PdfJs.mkInit input false false true true);
                 CallGetPage 1; CallRender vp; CallPageCleanup; CallDestroy] in
    (l = full ∧ ∃ png, res = inr png) ∨
    (l `prefix_of` take 3 full ∧ ∃ e, res = inl e).
Proof.
  intros H. unfold_js. simpl in H. split_run; simpl;
    rewrite <- ?app_assoc; simpl; eexists; eexists; (split; [reflexivity|]);
    first [ by (left; split; [reflexivity|eauto])
          | right; split; [|by eauto] ];
    first [ by (eexists []; reflexivity)
          | by (eexists [_]; reflexivity)
          | by (eexists [_; _]; reflexivity) ].
  Unshelve. all: exact (PdfJs.mkViewport 0 0).
Qed.

(** X8.  The canvas revision calls pdf.js in one fixed order, each call at most
    once: [getDocument], [getPage(1)], [render], [page.cleanup],
    [pdf.destroy].  A 200 made all five; a 500 stopped within the first
    three, so the page and the document it may have opened were never
    released. *)
Theorem canvas_releases_only_on_success getDocument toBuffer r req w b :
  guard r req = false →
  input_of r req = JBuffer b →
  ∃ vp,
    status_of (handle (OnCanvas getDocument toBuffer) r req w) = Some 200 ∧
    calls_since w (handle (OnCanvas getDocument toBuffer) r req w)
    = [CallGetDocument (PdfJs.mkInit (JBuffer b) false false true true);
       CallGetPage 1; CallRender vp; CallPageCleanup; CallDestroy]
    ∨
    status_of (handle (OnCanvas getDocument toBuffer) r req w) = Some 500 ∧
    calls_since w (handle (OnCanvas getDocument toBuffer) r req w)
    `prefix_of`
    [CallGetDocument (PdfJs.mkInit (JBuffer b) false false true true);
     CallGetPage 1; CallRender vp].
Proof.
  intros Hg Hin.
  destruct (handle_ends (OnCanvas getDocument toBuffer) r req w)
    as [Hg'|e w1 _ Hr|png w1 _ Hr Hn|png w1 n _ Hr Hn]; [congruence|..];
    simpl in Hr; rewrite Hin in *;
    apply convertPdfToPng_calls in Hr as (l & vp & Hl & Hcase);
    simpl in Hl, Hcase; exists vp;
    destruct Hcase as [[-> [png' ?]]|[Hp [e' ?]]]; simplify_eq/=.
  - right. split; [by rewrite conversion_failed_run|].
    rewrite (calls_since_app w _ l); [done|]. by rewrite conversion_failed_run.
  - left. split; [done|]. by apply calls_since_app.
Qed.

Lemma canvas_releases_only_on_success_witness :
  ∃ vp,
    status_of (handle Sample.on_canvas ConvertRoute
                 (Sample.upload ∅ Sample.three_pages) Sample.world) = Some 200 ∧
    calls_since Sample.world
      (handle Sample.on_canvas ConvertRoute
         (Sample.upload ∅ Sample.three_pages) Sample.world)
    = [CallGetDocument (PdfJs.mkInit (JBuffer Sample.three_pages) false false true true);
       CallGetPage 1; CallRender vp; CallPageCleanup; CallDestroy]
    ∨
    status_of (handle Sample.on_canvas ConvertRoute
                 (Sample.upload ∅ Sample.three_pages) Sample.world) = Some 500 ∧
    calls_since Sample.world
      (handle Sample.on_canvas ConvertRoute
         (Sample.upload ∅ Sample.three_pages) Sample.world)
    `prefix_of`
    [CallGetDocument (PdfJs.mkInit (JBuffer Sample.three_pages) false false true true);
     CallGetPage 1; CallRender vp].
Proof.
  apply (canvas_releases_only_on_success Sample.getDocument Sample.toBuffer
           ConvertRoute (Sample.upload ∅ Sample.three_pages) Sample.world
           Sample.three_pages); reflexivity.
Defined.

(** ** More on scratch paths *)

Lemma segments_nonempty s : path.segments s ≠ [].
Proof.
  destruct s as [|c s]; simpl; [done|].
  destruct (path.is_sep c); [done|]. by destruct (path.segments s).
Qed.

Lemma segments_app s t :
  path.segments (s +:+ String "/" t) = path.segments s ++ path.segments t.
Proof.
  induction s as [|c s IH]; [done|].
  change (String c s +:+ String "/" t) with (String c (s +:+ String "/" t)).
  simpl. rewrite IH. destruct (path.is_sep c); [done|].
  pose proof (segments_nonempty s). by destruct (path.segments s).
Qed.

Lemma ends_with_sep_app s t :
  t ≠ EmptyString → path.ends_with_sep (s +:+ t) = path.ends_with_sep t.
Proof.
  intros Ht. induction s as [|c s IH]; [done|].
  change (String c s +:+ t) with (String c (s +:+ t)).
  rewrite ends_with_sep_cons; [done|]. destruct s; [done|discriminate].
Qed.

Lemma string_eqb_false s t : s ≠ t → String.eqb s t = false.
Proof. apply String.eqb_neq. Qed.






(** ** The external-process revision once the process has run *)





Lemma through_files_artifact c r cid b w d res d' img :
  fs.writeFileSync (Poppler.tempPdfPath r cid) (JBuffer b) (disk w) = inr d →
  c (Poppler.tempPdfPath r cid) (Poppler.options r cid) d = (inr res, d') →
  PdfPoppler.nothing_converted res = false →
  d' !! Poppler.pngPath r cid = Some (File img) →
  ∃ w',
    Poppler.through_files c r cid (JBuffer b) w = (inr img, w') ∧
    Poppler.cleanup r cid
      (mkWorld (clock w) (ticks w) d' (console w)
         (calls w ++ [CallPopplerConvert (Poppler.tempPdfPath r cid)
                        (Poppler.options r cid)]) (pdfjsLib w))
    = (inr tt, w').
Proof.
  intros Hw Hc Hres Himg.
  destruct (cleanup_never_throws r cid
              (mkWorld (clock w) (ticks w) d' (console w)
                 (calls w ++ [CallPopplerConvert (Poppler.tempPdfPath r cid)
                                (Poppler.options r cid)]) (pdfjsLib w)))
    as (w' & Hcl & _).
  exists w'. split; [|done].
  unfold Poppler.through_files. rewrite bind_run.
  unfold on_disk at 1. rewrite Hw.
  rewrite bind_run. unfold Poppler.run_convert at 1. simpl. rewrite Hc, Hres.
  rewrite bind_run. unfold read_disk at 1, fs.readFileSync. simpl.
  rewrite Himg, bind_run, Hcl. done.
Qed.

(** X9.  Once the temporary file is written, the process has resolved with
    a result and [page-1.png] can be read, the answer is a 200 carrying that
    file: nothing that happens in the cleanup block can change it. *)
Theorem artifact_decides_answer c r req w b d res d' img :
  guard r req = false →
  input_of r req = JBuffer b →
  fs.writeFileSync (Poppler.tempPdfPath r (correlationId_of req))
                   (JBuffer b) (disk w) = inr d →
  c (Poppler.tempPdfPath r (correlationId_of req))
    (Poppler.options r (correlationId_of req)) d = (inr res, d') →
  PdfPoppler.nothing_converted res = false →
  d' !! Poppler.pngPath r (correlationId_of req) = Some (File img) →
  status_of (handle (ExternalProcess c) r req w) = Some 200 ∧
  image_of (handle (ExternalProcess c) r req w) = Some img.
Proof.
  intros Hg Hin Hw Hc Hres Himg.
  destruct (through_files_artifact c r (correlationId_of req) b (ticked w)
              d res d' img Hw Hc Hres Himg) as (w' & Hrun & _).
  rewrite handle_pipeline. erewrite pipeline_rendered; [|done|].
  2: { simpl. rewrite Hin. exact Hrun. }
  unfold try_catch. rewrite conversion_succeeded_run, Hin. done.
Qed.

Lemma artifact_decides_answer_witness :
  status_of (handle (ExternalProcess Faulty.eats_input) ConvertRoute
               (Sample.upload ∅ Sample.three_pages) Sample.world) = Some 200 ∧
  image_of (handle (ExternalProcess Faulty.eats_input) ConvertRoute
              (Sample.upload ∅ Sample.three_pages) Sample.world)
  = Some Sample.signature.
Proof.
  eapply (artifact_decides_answer Faulty.eats_input ConvertRoute
            (Sample.upload ∅ Sample.three_pages) Sample.world
            Sample.three_pages).
  - reflexivity.
  - reflexivity.
  - vm_compute. reflexivity.
  - reflexivity.
  - reflexivity.
  - vm_compute. reflexivity.
Defined.

(** X10.  When the temporary input file is gone by the time the cleanup
    block runs, its first step throws and the other two are skipped: the
    answer is still the 200, [console.warn] is called once, with the label
    of the route and the message of the failed [unlinkSync], and
    [page-1.png] and the output directory stay on the disk. *)
Theorem failed_cleanup_step_skips_the_rest c r req w b d res d' img :
  guard r req = false →
  input_of r req = JBuffer b →
  fs.writeFileSync (Poppler.tempPdfPath r (correlationId_of req))
                   (JBuffer b) (disk w) = inr d →
  c (Poppler.tempPdfPath r (correlationId_of req))
    (Poppler.options r (correlationId_of req)) d = (inr res, d') →
  PdfPoppler.nothing_converted res = false →
  d' !! Poppler.pngPath r (correlationId_of req) = Some (File img) →
  d' !! Poppler.tempPdfPath r (correlationId_of req) = None →
  status_of (handle (ExternalProcess c) r req w) = Some 200 ∧
  disk (handle (ExternalProcess c) r req w).2 = d' ∧
  console (handle (ExternalProcess c) r req w).2
  = console w ++
    [mkLog Warn
       ("[" +:+ correlationId_of req +:+ "] " +:+ Poppler.cleanup_label r)
       (Some ("ENOENT: no such file or directory, unlink '"
              +:+ Poppler.tempPdfPath r (correlationId_of req) +:+ "'"))].
Proof.
  intros Hg Hin Hw Hc Hres Himg Hgone.
  destruct (through_files_artifact c r (correlationId_of req) b (ticked w)
              d res d' img Hw Hc Hres Himg) as (w' & Hrun & Hcl).
  rewrite handle_pipeline. erewrite pipeline_rendered; [|done|].
  2: { simpl. rewrite Hin. exact Hrun. }
  unfold try_catch. rewrite conversion_succeeded_run, Hin. simpl.
  revert Hcl. unfold_js. unfold fs.unlinkSync at 1. simpl. rewrite Hgone. simpl.
  by intros [= <-].
Qed.

Lemma failed_cleanup_step_skips_the_rest_witness :
  status_of (handle (ExternalProcess Faulty.eats_input) ConvertRoute
               (Sample.upload ∅ Sample.three_pages) Sample.world) = Some 200 ∧
  disk (handle (ExternalProcess Faulty.eats_input) ConvertRoute
          (Sample.upload ∅ Sample.three_pages) Sample.world).2
  = <[ "/tmp/output-unknown/page-1.png" := File Sample.signature ]>
      (<[ "/tmp/output-unknown" := Dir ]> (disk Sample.world)) ∧
  console (handle (ExternalProcess Faulty.eats_input) ConvertRoute
             (Sample.upload ∅ Sample.three_pages) Sample.world).2
  = console Sample.world ++
    [mkLog Warn
       ("[" +:+ correlationId_of (Sample.upload ∅ Sample.three_pages)
        +:+ "] " +:+ Poppler.cleanup_label ConvertRoute)
       (Some ("ENOENT: no such file or directory, unlink '"
              +:+ Poppler.tempPdfPath ConvertRoute
                    (correlationId_of (Sample.upload ∅ Sample.three_pages))
              +:+ "'"))].
Proof.
  eapply (failed_cleanup_step_skips_the_rest Faulty.eats_input ConvertRoute
            (Sample.upload ∅ Sample.three_pages) Sample.world
            Sample.three_pages).
  - reflexivity.
  - reflexivity.
  - vm_compute. reflexivity.
  - vm_compute. reflexivity.
  - reflexivity.
  - vm_compute. reflexivity.
  - vm_compute. reflexivity.
Defined.




(** X12.  Under the external-process revision a 500 never cleans up: once
    the temporary file is written, whatever then fails (the process
    rejecting, resolving to nothing, or leaving no [page-1.png]), the disk
    the handler leaves is the disk the process left. *)
Theorem failure_skips_cleanup c r req w b d out_c d' :
  guard r req = false →
  input_of r req = JBuffer b →
  fs.writeFileSync (Poppler.tempPdfPath r (correlationId_of req))
                   (JBuffer b) (disk w) = inr d →
  c (Poppler.tempPdfPath r (correlationId_of req))
    (Poppler.options r (correlationId_of req)) d = (out_c, d') →
  status_of (handle (ExternalProcess c) r req w) = Some 500 →
  disk (handle (ExternalProcess c) r req w).2 = d' ∧
  calls_since w (handle (ExternalProcess c) r req w)
  = [CallPopplerConvert (Poppler.tempPdfPath r (correlationId_of req))
       (Poppler.options r (correlationId_of req))].
Proof.
  intros Hg Hin Hw Hc.
  destruct (handle_ends (ExternalProcess c) r req w)
    as [Hg'|e w1 _ Hr|png w1 _ Hr Hn|png w1 n _ Hr Hn];
    [congruence| |by rewrite Hin in Hn|done].
  intros _. rewrite conversion_failed_run. simpl.
  simpl in Hr. rewrite Hin in Hr. unfold Poppler.through_files in Hr.
  rewrite bind_run in Hr. unfold on_disk at 1 in Hr.
  change (disk (ticked w)) with (disk w) in Hr.
  rewrite Hw in Hr. rewrite bind_run in Hr.
  unfold Poppler.run_convert at 1 in Hr. simpl in Hr. rewrite Hc in Hr.
  destruct out_c as [e'|res].
  { injection Hr as <- <-. split; [done|]. by apply calls_since_app. }
  destruct (PdfPoppler.nothing_converted res).
  { injection Hr as <- <-. split; [done|]. by apply calls_since_app. }
  rewrite bind_run in Hr. unfold read_disk at 1 in Hr. simpl in Hr.
  destruct (fs.readFileSync _ d') as [e'|img].
  { injection Hr as <- <-. split; [done|]. by apply calls_since_app. }
  rewrite bind_run in Hr.
  match type of Hr with
  | context [Poppler.cleanup ?r' ?c' ?w'] =>
      destruct (cleanup_never_throws r' c' w') as (w3 & Hcl & _)
  end.
  by rewrite Hcl in Hr.
Qed.

Lemma failure_skips_cleanup_witness :
  disk (handle Sample.external_process ConvertRoute
          (Sample.upload (Sample.with_id "job-8") Sample.no_pages)
          Sample.world).2
  = <[ "/tmp/job-8.pdf" := File Sample.no_pages ]> (disk Sample.world) ∧
  calls_since Sample.world
    (handle Sample.external_process ConvertRoute
       (Sample.upload (Sample.with_id "job-8") Sample.no_pages) Sample.world)
  = [CallPopplerConvert
       (Poppler.tempPdfPath ConvertRoute
          (correlationId_of (Sample.upload (Sample.with_id "job-8") Sample.no_pages)))
       (Poppler.options ConvertRoute
          (correlationId_of (Sample.upload (Sample.with_id "job-8") Sample.no_pages)))].
Proof.
  eapply (failure_skips_cleanup Sample.pdf_convert ConvertRoute
            (Sample.upload (Sample.with_id "job-8") Sample.no_pages)
            Sample.world Sample.no_pages).
  - reflexivity.
  - reflexivity.
  - vm_compute. reflexivity.
  - vm_compute. reflexivity.
  - reflexivity.
Defined.

(** X18.  Under the external-process revision, a request past the guard
    whose temporary file cannot be written is answered 500 with the message
    of [fs.writeFileSync]; the process is not started and the disk is left
    as it was.  An identifier with a slash in it names a directory under
    [/tmp] that nothing has created: the write fails with [ENOENT]. *)
Theorem failed_write_stops_the_request c r req w e :
  guard r req = false →
  fs.writeFileSync (Poppler.tempPdfPath r (correlationId_of req))
                   (input_of r req) (disk w) = inl e →
  status_of (handle (ExternalProcess c) r req w) = Some 500 ∧
  json_field "message" (handle (ExternalProcess c) r req w)
  = Some (JStr (str_or (message e) "Unknown conversion error")) ∧
  calls_since w (handle (ExternalProcess c) r req w) = [] ∧
  disk (handle (ExternalProcess c) r req w).2 = disk w.
Proof.
  intros Hg Hw.
  assert (Hr : renderer (ExternalProcess c) r req (ticked w) = (inl e, ticked w)).
  { simpl. unfold Poppler.through_files. rewrite bind_run.
    unfold on_disk at 1. change (disk (ticked w)) with (disk w).
    by rewrite Hw. }
  destruct (handle_ends (ExternalProcess c) r req w)
    as [Hg'|e1 w1 _ Hr1|png w1 _ Hr1 Hn|png w1 n _ Hr1 Hn];
    [congruence| |congruence|congruence].
  rewrite Hr in Hr1. injection Hr1 as <- <-.
  rewrite conversion_failed_run. simpl.
  repeat split; try done. apply calls_since_app. simpl. by rewrite app_nil_r.
Qed.

Lemma failed_write_stops_the_request_witness :
  status_of (handle Sample.external_process ConvertRoute
               (Sample.upload (Sample.with_id "a/b") Sample.three_pages)
               Sample.world) = Some 500 ∧
  json_field "message"
    (handle Sample.external_process ConvertRoute
       (Sample.upload (Sample.with_id "a/b") Sample.three_pages) Sample.world)
  = Some (JStr "ENOENT: no such file or directory, open '/tmp/a/b.pdf'") ∧
  calls_since Sample.world
    (handle Sample.external_process ConvertRoute
       (Sample.upload (Sample.with_id "a/b") Sample.three_pages) Sample.world)
  = [] ∧
  disk (handle Sample.external_process ConvertRoute
          (Sample.upload (Sample.with_id "a/b") Sample.three_pages)
          Sample.world).2 = disk Sample.world.
Proof.
  eapply (failed_write_stops_the_request Sample.pdf_convert ConvertRoute
            (Sample.upload (Sample.with_id "a/b") Sample.three_pages)
            Sample.world
            (Error "ENOENT: no such file or directory, open '/tmp/a/b.pdf'")).
  - reflexivity.
  - vm_compute. reflexivity.
Defined.

(** ** Identifiers that are not plain names *)

Lemma join_tmp_dotdot name :
  slash_free name = true →
  name ≠ EmptyString → name ≠ "." → name ≠ ".." →
  path.join "/tmp" ("../" +:+ name) = "/" +:+ name.
Proof.
  intros Hfree Hne Hdot Hdots. unfold path.join.
  change (String.eqb "/tmp" EmptyString) with false.
  change (String.eqb ("../" +:+ name) EmptyString) with false.
  change ("/tmp" +:+ "/" +:+ "../" +:+ name) with ("/tmp/.." +:+ String "/" name).
  unfold path.normalize.
  change (String.eqb ("/tmp/.." +:+ String "/" name) EmptyString) with false.
  change (path.starts_with_sep ("/tmp/.." +:+ String "/" name)) with true.
  rewrite ends_with_sep_app by done.
  rewrite (ends_with_sep_cons "/" name Hne).
  rewrite (ends_with_sep_slash_free name Hfree).
  rewrite segments_app, (segments_slash_free name Hfree).
  change (path.segments "/tmp/..") with [EmptyString; "tmp"; ".."].
  cbn [path.resolve String.eqb Ascii.eqb Bool.eqb orb app negb].
  rewrite (string_eqb_false name EmptyString Hne).
  rewrite (string_eqb_false name "." Hdot).
  rewrite (string_eqb_false name ".." Hdots).
  cbn [orb]. change (reverse [name]) with [name].
  cbn [path.join_segments]. rewrite (string_eqb_false name EmptyString Hne).
  reflexivity.
Qed.

(** X13.  The header chooses where the temporary file goes.  A plain identifier
    puts it directly under [/tmp]; the identifier [../name] puts it at
    [/name.pdf], outside [/tmp]. *)
Theorem identifier_can_leave_tmp r name :
  slash_free name = true →
  Poppler.tempPdfPath r name
  = "/tmp/" +:+ name +:+ match r with
                         | ConvertRoute => ".pdf"
                         | ConvertRawRoute => "-raw.pdf"
                         end ∧
  Poppler.tempPdfPath r ("../" +:+ name)
  = "/" +:+ name +:+ match r with
                     | ConvertRoute => ".pdf"
                     | ConvertRawRoute => "-raw.pdf"
                     end.
Proof.
  intros Hfree. split; [by apply tempPdfPath_plain|].
  unfold Poppler.tempPdfPath.
  destruct r;
    [change (("../" +:+ name) +:+ ".pdf") with ("../" +:+ name +:+ ".pdf")
    |change (("../" +:+ name) +:+ "-raw.pdf") with ("../" +:+ name +:+ "-raw.pdf")];
    (apply join_tmp_dotdot; [by rewrite slash_free_app, Hfree|..]);
    apply not_short; simpl; lia.
Qed.

Lemma identifier_can_leave_tmp_witness :
  Poppler.tempPdfPath ConvertRoute "etc-passwd"
  = "/tmp/" +:+ "etc-passwd" +:+ ".pdf" ∧
  Poppler.tempPdfPath ConvertRoute ("../" +:+ "etc-passwd")
  = "/" +:+ "etc-passwd" +:+ ".pdf".
Proof.
  apply (identifier_can_leave_tmp ConvertRoute "etc-passwd"). reflexivity.
Defined.

(** ** The test script against the handlers *)

(** X14.  The two negative checks of the test script, applied to what a handler
    answers: [testConvertRawInvalidContent] accepts every answer that is not
    a 200, and no 200; [testConvertMissingFile] accepts exactly the 400s. *)
Theorem error_checks_accept_every_failure s r req w :
  ∃ resp,
    (handle s r req w).1 = inr resp ∧
    ProdTest.invalid_content_ok resp = negb (status resp =? 200) ∧
    ProdTest.missing_file_ok resp = (status resp =? 400).
Proof.
  destruct (handle_ends s r req w) as [Hg|e w1 Hg Hr|png w1 Hg Hr Hn|png w1 n Hg Hr Hn];
    rewrite ?conversion_failed_run; simpl; eexists; (split; [reflexivity|]);
    try done.
  by destruct r.
Qed.

(** X15.  The positive check of the test script, applied to what a handler
    answers: it passes, reporting the size of the image, exactly on a 200
    whose image is not empty; a 400 or a 500 fails on the status, and an
    empty image on the empty body. *)
Theorem convert_check_passes_on_images s r req w :
  ∃ resp,
    (handle s r req w).1 = inr resp ∧
    ProdTest.convert_verdict resp =
    match image_of (handle s r req w) with
    | Some [] => ProdTest.EmptyPngContent
    | Some png => ProdTest.Passed (Z.of_nat (length png))
    | None => ProdTest.ConvertFailed (status resp)
    end ∧
    (image_of (handle s r req w) = None → status resp = 400 ∨ status resp = 500).
Proof.
  destruct (handle_ends s r req w) as [Hg|e w1 Hg Hr|png w1 Hg Hr Hn|png w1 n Hg Hr Hn];
    rewrite ?conversion_failed_run; simpl; eexists; (split; [reflexivity|]);
    simpl; try (split; [done|]; auto).
  by destruct png.
Qed.

(** ** The identifiers of the test script *)

Lemma pretty_N_go_closed (P : string → Prop) :
  (∀ x s, P s → P (String (pretty_N_char x) s)) →
  ∀ n s, P s → P (pretty_N_go n s).
Proof.
  intros HP n. induction (N.lt_wf_0 n) as [n _ IH]. intros s Hs.
  destruct (decide (n = 0)%N) as [->|Hn]; [by rewrite pretty_N_go_0|].
  rewrite pretty_N_go_step by lia. apply IH; [apply N.div_lt; lia|].
  by apply HP.
Qed.

Lemma pretty_Z_closed (P : string → Prop) z :
  (∀ x s, P s → P (String (pretty_N_char x) s)) →
  P EmptyString → 0 ≤ z → P (pretty z).
Proof.
  intros HP H0 Hz. destruct z as [|p|p]; [|..|lia].
  - apply (HP 0%N EmptyString H0).
  - by apply (pretty_N_go_closed P HP (N.pos p)).
Qed.

Lemma pretty_dash_free z : 0 ≤ z → ProdTest.dash_free (pretty z) = true.
Proof.
  apply (pretty_Z_closed (λ s, ProdTest.dash_free s = true)); [|done].
  intros x s Hs. simpl. rewrite Hs. unfold pretty_N_char. by repeat case_match.
Qed.

Lemma pretty_slash_free z : 0 ≤ z → slash_free (pretty z) = true.
Proof.
  apply (pretty_Z_closed (λ s, slash_free s = true)); [|done].
  intros x s Hs. simpl. rewrite Hs. unfold pretty_N_char. by repeat case_match.
Qed.

(** Two strings that agree up to and including their first dash. *)
Lemma first_dash_splits a b x y :
  ProdTest.dash_free a = true → ProdTest.dash_free b = true →
  a +:+ String "-" x = b +:+ String "-" y → a = b.
Proof.
  revert b. induction a as [|c a IH]; intros [|d b] Ha Hb H.
  - done.
  - change (String "-" x = String d (b +:+ String "-" y)) in H.
    injection H as <- _. done.
  - change (String c (a +:+ String "-" x) = String "-" y) in H.
    injection H as -> _. done.
  - change (String c (a +:+ String "-" x) = String d (b +:+ String "-" y)) in H.
    injection H as -> H. simpl in Ha, Hb.
    apply andb_true_iff in Ha as [_ Ha]. apply andb_true_iff in Hb as [_ Hb].
    f_equal. by apply IH.
Qed.

(** X16.  Identifiers generated at two different readings of the clock are
    different, whatever the random parts and the suffixes; made of parts
    without a [/], they are plain names, so the two requests work on
    different temporary files and output directories. *)
Theorem test_identifiers_keep_requests_apart
        random1 random2 suffix1 suffix2 w1 w2 r :
  0 ≤ clock w1 (ticks w1) →
  0 ≤ clock w2 (ticks w2) →
  clock w1 (ticks w1) ≠ clock w2 (ticks w2) →
  slash_free (random1 +:+ ProdTest.suffix_part suffix1) = true →
  slash_free (random2 +:+ ProdTest.suffix_part suffix2) = true →
  ∃ id1 id2,
    (ProdTest.generateCorrelationId random1 suffix1 w1).1 = inr id1 ∧
    (ProdTest.generateCorrelationId random2 suffix2 w2).1 = inr id2 ∧
    id1 ≠ id2 ∧
    slash_free id1 = true ∧ slash_free id2 = true ∧
    Poppler.tempPdfPath r id1 ≠ Poppler.tempPdfPath r id2 ∧
    Poppler.tempOutputDir r id1 ≠ Poppler.tempOutputDir r id2.
Proof.
  intros H1 H2 Hne Hs1 Hs2. do 2 eexists.
  split; [reflexivity|]. split; [reflexivity|].
  set (t1 := clock w1 (ticks w1)) in *. set (t2 := clock w2 (ticks w2)) in *.
  set (rest1 := random1 +:+ ProdTest.suffix_part suffix1) in *.
  set (rest2 := random2 +:+ ProdTest.suffix_part suffix2) in *.
  assert ("test-" +:+ pretty t1 +:+ "-" +:+ rest1
          ≠ "test-" +:+ pretty t2 +:+ "-" +:+ rest2) as Hid.
  { intros H. apply (inj (String.app "test-")) in H.
    apply first_dash_splits in H; [|by apply pretty_dash_free..].
    by apply (inj pretty) in H. }
  assert (∀ t rest, 0 ≤ t → slash_free rest = true →
            slash_free ("test-" +:+ pretty t +:+ "-" +:+ rest) = true) as Hplain.
  { intros t rest Ht Hrest.
    change (slash_free (pretty t +:+ String "-" rest) = true).
    rewrite slash_free_app, pretty_slash_free by done. simpl. by rewrite Hrest. }
  pose proof (Hplain t1 rest1 H1 Hs1) as Hp1.
  pose proof (Hplain t2 rest2 H2 Hs2) as Hp2.
  split; [done|]. split; [done|]. split; [done|].
  rewrite !tempPdfPath_plain, !tempOutputDir_plain by done.
  split; intros H.
  - apply (inj (String.app "/tmp/")) in H. by apply string_app_inv_tail in H.
  - apply (inj (String.app "/tmp/output-")) in H.
    by apply string_app_inv_tail in H.
Qed.

Lemma test_identifiers_keep_requests_apart_witness :
  ∃ id1 id2,
    (ProdTest.generateCorrelationId "k3x9" (Some "raw") Sample.world).1 = inr id1 ∧
    (ProdTest.generateCorrelationId "k3x9" (Some "raw") (ticked Sample.world)).1
      = inr id2 ∧
    id1 ≠ id2 ∧
    slash_free id1 = true ∧ slash_free id2 = true ∧
    Poppler.tempPdfPath ConvertRawRoute id1 ≠ Poppler.tempPdfPath ConvertRawRoute id2 ∧
    Poppler.tempOutputDir ConvertRawRoute id1 ≠ Poppler.tempOutputDir ConvertRawRoute id2.
Proof.
  apply (test_identifiers_keep_requests_apart "k3x9" "k3x9" (Some "raw") (Some "raw")
           Sample.world (ticked Sample.world) ConvertRawRoute).
  - vm_compute. discriminate.
  - vm_compute. discriminate.
  - vm_compute. discriminate.
  - reflexivity.
  - reflexivity.
Defined.

(** ** The lazily loaded pdf.js module *)

Lemma convertPdfToPng_loads g t input cid w :
  pdfjsLib (Canvas.convertPdfToPng g t input cid w).2 = true.
Proof.
  unfold_js. simpl.
  destruct (pdfjsLib w) eqn:Hl;
    (destruct (g _) as [e|pdf]; simpl; [done|]);
    (destruct (PdfJs.numPages pdf =? 0); simpl; [done|]);
    (destruct (PdfJs.getPage pdf 1) as [e|page]; simpl; [done|]);
    by destruct (PdfJs.render page _ _).
Qed.

(** X17.  The canvas revision loads pdf.js on the first request that passes the
    guard and keeps it from then on; a rejected request does not load it,
    and the other two revisions never do. *)
Theorem pdfjs_is_loaded_on_first_use s r req w :
  pdfjsLib (handle s r req w).2 =
  match s with
  | OnCanvas _ _ => pdfjsLib w || negb (guard r req)
  | _ => pdfjsLib w
  end.
Proof.
  destruct (handle_ends s r req w) as [Hg|e w1 Hg Hr|png w1 Hg Hr Hn|png w1 n Hg Hr Hn];
    rewrite ?conversion_failed_run, Hg; simpl.
  - destruct s; [done| |done]. by rewrite orb_false_r.
  - destruct s as [f|g t|c]; simpl in Hr.
    + rewrite first_page_run in Hr. by injection Hr as _ <-.
    + pose proof (convertPdfToPng_loads g t (input_of r req)
                    (correlationId_of req) (ticked w)) as Hl.
      rewrite Hr in Hl. simpl in Hl. by rewrite Hl, orb_true_r.
    + unfold_js. simpl in Hr. by split_run.
  - destruct s as [f|g t|c]; simpl in Hr.
    + rewrite first_page_run in Hr. by injection Hr as _ <-.
    + pose proof (convertPdfToPng_loads g t (input_of r req)
                    (correlationId_of req) (ticked w)) as Hl.
      rewrite Hr in Hl. simpl in Hl. by rewrite Hl, orb_true_r.
    + unfold_js. simpl in Hr. by split_run.
  - destruct s as [f|g t|c]; simpl in Hr.
    + rewrite first_page_run in Hr. by injection Hr as _ <-.
    + pose proof (convertPdfToPng_loads g t (input_of r req)
                    (correlationId_of req) (ticked w)) as Hl.
      rewrite Hr in Hl. simpl in Hl. by rewrite Hl, orb_true_r.
    + unfold_js. simpl in Hr. by split_run.
Qed.
